(** * Lost-Photos-Found: the extraction and deduplication engine

    A shallow embedding of [lostphotosfound/server.py] (class [Server]) and
    the properties its specification states about it.

    The embedding follows the Python source method by method:
    [_filter_messages], [_save_part], [_cleanup] and [lostphotosfound].
    Strings are Rocq strings (one [ascii] per character), byte payloads are
    [list Byte.byte], the two shelves and the file system are finite maps,
    and a raised exception is an [Err] result that leaves the state as it
    was when the exception was raised.  What the libraries and the mailbox
    session answer is read from an environment record; [print] is left
    out. *)

From Stdlib Require Import ZArith Ascii String List DecimalString.
From Stdlib Require Strings.Byte.
From stdpp Require Import base gmap strings list fin_maps.

Open Scope string_scope.
Open Scope list_scope.

(** ** Python string primitives used by the source *)

Module PyStr.

(** [sub in s] *)
Fixpoint contains (sub s : string) : bool :=
  String.prefix sub s ||
  match s with
  | EmptyString => false
  | String _ s' => contains sub s'
  end.

(** [s.split(sep)] for a non-empty [sep]: scan from the left, cut at every
    occurrence, never overlapping.  [skip] counts the characters of an
    occurrence still to be dropped, [acc] is the piece being built. *)
Fixpoint split_go (sep : string) (skip : nat) (acc s : string) : list string :=
  match s with
  | EmptyString => [acc]
  | String c s' =>
      match skip with
      | S k => split_go sep k acc s'
      | O =>
          if String.prefix sep s
          then acc :: split_go sep (String.length sep - 1) EmptyString s'
          else split_go sep 0 (acc +:+ String c EmptyString) s'
      end
  end.

Definition split (sep s : string) : list string := split_go sep 0 EmptyString s.

(** [l[-1]] on the result of a split, which is never empty. *)
Definition last_piece (l : list string) : string := List.last l EmptyString.

(** [s.replace(old, new)] for a non-empty [old]. *)
Fixpoint replace_go (old new : string) (skip : nat) (s : string) : string :=
  match s with
  | EmptyString => EmptyString
  | String c s' =>
      match skip with
      | S k => replace_go old new k s'
      | O =>
          if String.prefix old s
          then new +:+ replace_go old new (String.length old - 1) s'
          else String c (replace_go old new 0 s')
      end
  end.

Definition replace (old new s : string) : string := replace_go old new 0 s.

(** [sep.join(l)] *)
Fixpoint join (sep : string) (l : list string) : string :=
  match l with
  | [] => EmptyString
  | [x] => x
  | x :: rest => x +:+ sep +:+ join sep rest
  end.

(** [s[i]]: a one-character string, or [IndexError] ([None]). *)
Definition index (s : string) (i : nat) : option string :=
  match String.get i s with
  | Some c => Some (String c EmptyString)
  | None => None
  end.

(** Truth value of a string: empty is false. *)
Definition truthy (s : string) : bool :=
  match s with
  | EmptyString => false
  | String _ _ => true
  end.

(** ['%s' % n] for an integer. *)
Definition str_int (n : Z) : string := NilZero.string_of_int (Z.to_int n).

Fixpoint zeros (k : nat) : string :=
  match k with
  | O => EmptyString
  | S k' => String "0" (zeros k')
  end.

(** ['%06d' % n] for a natural number: left-padded with zeros to width 6. *)
Definition fmt_06d (n : nat) : string :=
  let digits := NilZero.string_of_uint (Nat.to_uint n) in
  zeros (6 - String.length digits) +:+ digits.

(** [str.maketrans(dict.fromkeys(chars))]: every character of [chars] is
    mapped to [None]. *)
Definition fromkeys (chars : string) : list (ascii * option string) :=
  map (fun c => (c, None)) (list_ascii_of_string chars).

Fixpoint table_get (table : list (ascii * option string)) (c : ascii)
  : option (option string) :=
  match table with
  | [] => None
  | (k, v) :: rest => if Ascii.eqb k c then Some v else table_get rest c
  end.

(** [s.translate(table)]: a character mapped to [None] is deleted, one
    mapped to a string is replaced by it, an unmapped one is kept. *)
Fixpoint translate (table : list (ascii * option string)) (s : string) : string :=
  match s with
  | EmptyString => EmptyString
  | String c s' =>
      match table_get table c with
      | Some None => translate table s'
      | Some (Some r) => r +:+ translate table s'
      | None => String c (translate table s')
      end
  end.

(** [os.path.join(a, b)] on POSIX. *)
Definition ends_with_slash (a : string) : bool :=
  match String.get (String.length a - 1) a with
  | Some c => Ascii.eqb c "/"
  | None => false
  end.

Definition path_join (a b : string) : string :=
  if String.prefix "/" b then b
  else if negb (truthy a) || ends_with_slash a then a +:+ b
  else a +:+ "/" +:+ b.

End PyStr.

(** The double quote and the backslash, written by character code. *)
Definition dquote : ascii := "034"%char.
Definition backslash : ascii := "092"%char.

(** ** Data model *)

Definition bytes := list Byte.byte.

(** One node of a parsed message, as the [email] package presents it. *)
Record part := {
  (** [part.get_filename()] *)
  part_filename : option string;
  (** [part.get('Content-Type')], the raw header *)
  part_content_type_header : option string;
  (** [part.get_content_maintype()] and the subtype; [get_content_type()]
      is the two joined by a slash *)
  part_maintype : string;
  part_subtype : string;
  (** [part.get('Content-Disposition')] *)
  part_disposition : option string;
  (** [part.get_payload(decode=True)]; [None] when decoding raises *)
  part_payload : option bytes
}.

Definition get_content_type (p : part) : string :=
  part_maintype p +:+ "/" +:+ part_subtype p.

Definition get_content_maintype (p : part) : string := part_maintype p.

(** [parsedate] gives a tuple whose first six fields the source formats. *)
Record date6 := {
  d_year : Z; d_month : Z; d_day : Z; d_hour : Z; d_min : Z; d_sec : Z
}.

(** A message built by [message_from_bytes]. *)
Record mail := {
  (** [mail.get_content_maintype()] *)
  mail_maintype : string;
  (** [mail['From']] *)
  mail_from : option string;
  (** [mail['date']] *)
  mail_date : option string;
  (** [mail.walk()]: the message itself, then its sub-parts depth first *)
  mail_walk : list part
}.

(** A message handle returned by the search. *)
Definition msg := Z.

(** What the run does not compute itself: library functions, the mailbox
    session's answers and the disk's verdict on a write. *)
Record env := {
  (** [lostphotosfound.utils._charset_decoder] *)
  _charset_decoder : string -> string;
  (** [email.utils.parsedate] *)
  parsedate : string -> option date6;
  (** [email.utils.parseaddr(header)[1]], the bare address *)
  parseaddr : string -> string;
  (** [hashlib.sha1(payload).hexdigest()] *)
  sha1_hexdigest : bytes -> string;
  (** [mimetypes.types_map], in iteration order *)
  types_map : list (string * string);
  (** [os.path.expanduser('~/LostPhotosFound')] *)
  userdir : string;
  (** [self._server.gmail_search(criteria)]; [None] when it raises *)
  gmail_search : string -> option (list msg);
  (** [self._server.fetch([msg], ['X-GM-MSGID'])]: the identifiers of the
      returned entries, each already through [str]; [None] when it raises *)
  fetch_msgid : msg -> option (list string);
  (** [self._server.fetch([msg], ['RFC822'])]: the returned entries, each
      already through [message_from_bytes]; [None] when it raises *)
  fetch_rfc822 : msg -> option (list mail);
  (** whether [imagefile.write(payload)] on this path succeeds *)
  write_ok : string -> bytes -> bool
}.

(** The constructor arguments kept on [self]. *)
Record config := {
  _username : string;
  _search : option string;
  _use_index : bool;
  _use_folders : bool
}.

(** Calls made to the collaborators, in the order they happen. *)
Inductive event :=
| EvSearch (criteria : string)
| EvFetchId (m : msg)
| EvFetchBody (m : msg)
| EvMakedirs (path : string)
| EvOpen (path : string)
| EvDecode
| EvWrite (path : string)
| EvRemove (path : string)
| EvIndexSync
| EvIndexClose
| EvHashesSync
| EvHashesClose
| EvCloseFolder
| EvLogout.

(** The mutable world of one [Server] object. *)
Record state := {
  (** [self._index], the shelf of processed message identifiers *)
  _index : gmap string string;
  (** [self._hashes], the shelf of payload digests *)
  _hashes : gmap string string;
  (** [self.seq]; [None] while the attribute does not exist *)
  seq : option nat;
  (** regular files, by path *)
  files : gmap string bytes;
  (** directories, by path *)
  dirs : gset string;
  (** the calls made so far, oldest first *)
  trace : list event
}.

Inductive error :=
| Exception (message : string)
| IndexError
| TypeError
| AttributeError
| ServerError.

Inductive result (A : Type) :=
| Ok (a : A)
| Err (e : error).
Arguments Ok {A} a.
Arguments Err {A} e.

(** ** State and exception monad *)

Definition M (A : Type) : Type := state -> result A * state.

Definition ret {A} (a : A) : M A := fun s => (Ok a, s).
Definition raise {A} (e : error) : M A := fun s => (Err e, s).
Definition bind {A B} (c : M A) (k : A -> M B) : M B :=
  fun s =>
    match c s with
    | (Ok a, s') => k a s'
    | (Err e, s') => (Err e, s')
    end.

Notation "'let*' x ':=' c 'in' k" := (bind c (fun x => k))
  (at level 10, x name, c at level 100, k at level 200, only parsing).

Definition get_state : M state := fun s => (Ok s, s).
Definition modify (f : state -> state) : M unit := fun s => (Ok tt, f s).

(** Field updates of the state. *)
Definition add_event (e : event) (s : state) : state :=
  {| _index := _index s; _hashes := _hashes s; seq := seq s;
     files := files s; dirs := dirs s; trace := trace s ++ [e] |}.

Definition put_index (i : gmap string string) (s : state) : state :=
  {| _index := i; _hashes := _hashes s; seq := seq s;
     files := files s; dirs := dirs s; trace := trace s |}.

Definition put_hashes (h : gmap string string) (s : state) : state :=
  {| _index := _index s; _hashes := h; seq := seq s;
     files := files s; dirs := dirs s; trace := trace s |}.

Definition put_seq (n : nat) (s : state) : state :=
  {| _index := _index s; _hashes := _hashes s; seq := Some n;
     files := files s; dirs := dirs s; trace := trace s |}.

Definition put_files (f : gmap string bytes) (s : state) : state :=
  {| _index := _index s; _hashes := _hashes s; seq := seq s;
     files := f; dirs := dirs s; trace := trace s |}.

Definition put_dirs (d : gset string) (s : state) : state :=
  {| _index := _index s; _hashes := _hashes s; seq := seq s;
     files := files s; dirs := d; trace := trace s |}.

Definition emit (e : event) : M unit := modify (add_event e).
Definition set_index (i : gmap string string) : M unit := modify (put_index i).
Definition set_hashes (h : gmap string string) : M unit := modify (put_hashes h).
Definition set_seq (n : nat) : M unit := modify (put_seq n).
Definition set_files (f : gmap string bytes) : M unit := modify (put_files f).
Definition set_dirs (d : gset string) : M unit := modify (put_dirs d).

(** *** File system and shelf operations *)

(** [os.path.isfile(path)] *)
Definition isfile (path : string) : M bool :=
  let* s := get_state in ret (bool_decide (is_Some (files s !! path))).

(** [os.path.isdir(path)] *)
Definition isdir (path : string) : M bool :=
  let* s := get_state in ret (bool_decide (path ∈ dirs s)).

(** [os.makedirs(path)] *)
Definition makedirs (path : string) : M unit :=
  let* s := get_state in
  let* _ := emit (EvMakedirs path) in
  set_dirs ({[path]} ∪ dirs s).

(** [open(path, 'wb')]: the file exists and is empty from here on. *)
Definition open_wb (path : string) : M unit :=
  let* s := get_state in
  let* _ := emit (EvOpen path) in
  set_files (<[path := []]> (files s)).

(** [os.remove(path)] *)
Definition remove (path : string) : M unit :=
  let* s := get_state in
  let* _ := emit (EvRemove path) in
  set_files (delete path (files s)).

(** ** The [Server] methods *)

Section Server.

Variable E : env.
Variable C : config.

(** *** [_filter_messages] *)

(** The loop over [mimetypes.types_map]: the extension of every type whose
    name contains [image], its dots removed. *)
Fixpoint image_extensions (tm : list (string * string)) : list string :=
  match tm with
  | [] => []
  | (ext, ty) :: rest =>
      if PyStr.contains "image" ty
      then PyStr.replace "." "" ext :: image_extensions rest
      else image_extensions rest
  end.

Definition mimelist : string := PyStr.join " OR " (image_extensions (types_map E)).

(** ['has:attachment filename:(%s)' % (mimelist)] *)
Definition image_filter : string :=
  "has:attachment filename:(" +:+ mimelist +:+ ")".

(** Truth value of [self._search], which is a string or [None]. *)
Definition search_given (search : option string) : option string :=
  match search with
  | Some s => if PyStr.truthy s then Some s else None
  | None => None
  end.

(** The criteria string handed to [gmail_search]. *)
Definition criteria : string :=
  match search_given (_search C) with
  | Some s => s +:+ " " +:+ image_filter
  | None => image_filter
  end.

Definition _filter_messages : M (list msg) :=
  let* _ := emit (EvSearch criteria) in
  match gmail_search E criteria with
  | Some messages => ret messages
  | None =>
      raise (Exception
        "Search criteria returned a failure, it must be a valid gmail search")
  end.

(** *** [_save_part]: the filename *)

(** [if not hasattr(self, "seq"): self.seq = 0] *)
Definition init_seq : M nat :=
  let* s := get_state in
  match seq s with
  | Some n => ret n
  | None => let* _ := set_seq 0 in ret 0
  end.

(** [part.get_filename()], with [__unnamed__] standing for [None], through
    the header decoder. *)
Definition decoded_filename (p : part) : string :=
  _charset_decoder E
    (match part_filename p with
     | Some name => name
     | None => "__unnamed__"
     end).

(** [part.get('Content-Type').split('name=')[-1]] with every double quote
    replaced by the empty string *)
Definition content_type_name (ct : string) : string :=
  PyStr.replace (String dquote EmptyString) ""
    (PyStr.last_piece (PyStr.split "name=" ct)).

(** ['attachment-%06d.data' % (self.seq)] *)
Definition synthesized_name (n : nat) : string :=
  "attachment-" +:+ PyStr.fmt_06d n +:+ ".data".

(** Lines 159 to 171: the name before sanitizing.  [header_filename[0][0]]
    indexes the string twice; either index raises on an empty string.  The
    second test of the [elif], [is None], is never true of a character. *)
Definition resolve_name (p : part) : M string :=
  let* n := init_seq in
  let header_filename := decoded_filename p in
  if PyStr.contains "None" header_filename then
    match part_content_type_header p with
    | Some ct => ret (content_type_name ct)
    | None => raise AttributeError
    end
  else
    match PyStr.index header_filename 0 with
    | None => raise IndexError
    | Some c0 =>
        match PyStr.index c0 0 with
        | None => raise IndexError
        | Some c00 =>
            if negb (PyStr.truthy c00) then
              let* _ := set_seq (n + 1) in
              ret (synthesized_name n)
            else ret header_filename
        end
    end.

(** [punct], the characters that are stripped. *)
Definition punct : string :=
  String "!" (String dquote ("#$&'*+/;<>?[" +:+ String backslash "]^`{|}~")).

(** [header_filename.translate(str.maketrans(dict.fromkeys(punct)))] *)
Definition sanitize (name : string) : string :=
  PyStr.translate (PyStr.fromkeys punct) name.

(** ['%s-%s-%s_%s-%s-%s_' % (header_date[0], ..., header_date[5])] *)
Definition date_prefix (d : date6) : string :=
  PyStr.str_int (d_year d) +:+ "-" +:+ PyStr.str_int (d_month d) +:+ "-" +:+
  PyStr.str_int (d_day d) +:+ "_" +:+ PyStr.str_int (d_hour d) +:+ "-" +:+
  PyStr.str_int (d_min d) +:+ "-" +:+ PyStr.str_int (d_sec d) +:+ "_".

(** [parsedate(_charset_decoder(mail['date']))]; subscripting the [None]
    that [parsedate] gives for an unreadable date raises, and so does
    decoding an absent header. *)
Definition header_date (m : mail) : M date6 :=
  match mail_date m with
  | None => raise TypeError
  | Some raw =>
      match parsedate E (_charset_decoder E raw) with
      | Some d => ret d
      | None => raise TypeError
      end
  end.

(** Lines 189 to 195: the directory the file goes to. *)
Definition savepath (sender : string) : string :=
  let base := PyStr.path_join (userdir E) (_username C) in
  if _use_folders C then PyStr.path_join base sender else base.

(** [filename = header_date + header_filename], after sanitizing. *)
Definition filename (d : date6) (header_filename : string) : string :=
  date_prefix d +:+ sanitize header_filename.

(** Lines 154 to 203: the destination path, with the directory made on the
    way. *)
Definition destination (p : part) (m : mail) (sender : string) : M string :=
  let* header_filename := resolve_name p in
  let* d := header_date m in
  let filename := filename d header_filename in
  let dir := savepath sender in
  let* present := isdir dir in
  let* _ := (if present then ret tt else makedirs dir) in
  ret (PyStr.path_join dir filename).

(** *** [_save_part]: the write *)

(** [part.get_payload(decode=True)] inside its [try]. *)
Definition decode_payload (p : part) (saved : string) : M bytes :=
  let* _ := emit EvDecode in
  match part_payload p with
  | Some payload => ret payload
  | None => raise (Exception ("Failed when downloading attachment: " +:+ saved))
  end.

(** [imagefile.write(payload)] inside its [try]. *)
Definition write_payload (saved : string) (payload : bytes) : M unit :=
  let* _ := emit (EvWrite saved) in
  if write_ok E saved payload then
    let* s := get_state in set_files (<[saved := payload]> (files s))
  else raise (Exception ("Failed writing attachment to file: " +:+ saved)).

(** Lines 204 to 223. *)
Definition store_payload (p : part) (saved : string) : M unit :=
  let* exists_already := isfile saved in
  if exists_already then ret tt
  else
    let* _ := open_wb saved in
    let* payload := decode_payload p saved in
    let payload_hash := sha1_hexdigest E payload in
    let* s := get_state in
    if bool_decide (is_Some (_hashes s !! payload_hash)) then remove saved
    else
      let* _ := write_payload saved payload in
      let* s' := get_state in
      set_hashes (<[payload_hash := payload_hash]> (_hashes s')).

Definition _save_part (p : part) (m : mail) (sender : string) : M unit :=
  let* saved := destination p m sender in
  store_payload p saved.

(** *** [_cleanup] *)

Definition _cleanup : M unit :=
  let* _ := emit EvIndexSync in
  let* _ := emit EvIndexClose in
  let* _ := emit EvHashesSync in
  let* _ := emit EvHashesClose in
  let* _ := emit EvCloseFolder in
  emit EvLogout.

(** *** [lostphotosfound] *)

(** The two guards of the loop over [mail.walk()], lines 280 to 287.  The
    test on [Content-Disposition] in between only does [pass]. *)
Definition eligible (p : part) : bool :=
  if String.eqb (get_content_maintype p) "multipart" then false
  else
    let _pass := match part_disposition p with None => tt | Some _ => tt end in
    PyStr.contains "image/" (get_content_type p).

(** [for part in mail.walk(): ...] *)
Fixpoint walk_parts (parts : list part) (m : mail) (sender : string) : M unit :=
  match parts with
  | [] => ret tt
  | p :: rest =>
      let* _ := (if eligible p then _save_part p m sender else ret tt) in
      walk_parts rest m sender
  end.

(** [sender], with its fallback. *)
Definition sender_of (from : string) : string :=
  let sender := parseaddr E from in
  if PyStr.truthy sender then sender else "unknown_sender".

(** The body of [for data in msgdata], lines 258 to 293.  The log line
    decodes [mail['From']] before anything else is done with the message;
    an absent header reaches the decoder as [None] and raises there, as
    for the date.  The subject is decoded only when there is one. *)
Definition process_mail (msgid : string) (m : mail) : M unit :=
  if negb (String.eqb (mail_maintype m) "multipart") then ret tt
  else
    match mail_from m with
    | None => raise TypeError
    | Some from =>
        let* _ := walk_parts (mail_walk m) m (sender_of from) in
        let* s := get_state in
        set_index (<[msgid := msgid]> (_index s))
    end.

Fixpoint process_msgdata (msgid : string) (msgdata : list mail) : M unit :=
  match msgdata with
  | [] => ret tt
  | m :: rest => let* _ := process_mail msgid m in process_msgdata msgid rest
  end.

(** The body of [for msg in messages], lines 241 to 293. *)
Definition process_message (h : msg) : M unit :=
  let* _ := emit (EvFetchId h) in
  match fetch_msgid E h with
  | None =>
      raise (Exception "Could not fetch the message ID, server did not respond")
  | Some [] => raise IndexError
  | Some (msgid :: _) =>
      let* s := get_state in
      if _use_index C && bool_decide (is_Some (_index s !! msgid)) then ret tt
      else
        let* _ := emit (EvFetchBody h) in
        match fetch_rfc822 E h with
        | None => raise ServerError
        | Some msgdata => process_msgdata msgid msgdata
        end
  end.

Fixpoint process_messages (messages : list msg) : M unit :=
  match messages with
  | [] => ret tt
  | h :: rest => let* _ := process_message h in process_messages rest
  end.

Definition lostphotosfound : M unit :=
  let* messages := _filter_messages in
  let* _ := process_messages messages in
  _cleanup.

End Server.

(** ** Opening the session: [__init__] and [_login] *)

Module Setup.

(** Calls made while a [Server] is built, in order. *)
Inductive call :=
| Connect (host : string)
| OpenShelf (path : string)
| Login (username : string)
| XlistFolders
| SelectFolder (folder : string) (readonly : bool).

Inductive failure :=
| Raised (message : string)
| UnboundLocalError.

(** What the collaborators answer while the session is opened. *)
Record world := {
  (** whether [IMAPClient(host, use_uid=True, ssl=True)] returns *)
  connect_ok : string -> bool;
  (** whether [self._server.login(username, password)] returns *)
  login_ok : string -> string -> bool;
  (** [self._server.xlist_folders()]: flags, delimiter, folder name *)
  xlist_folders : list (list string * string * string);
  (** whether [self._server.select_folder(folder, readonly=True)] returns *)
  select_ok : string -> bool;
  (** [lostphotosfound.utils._app_folder()] *)
  _app_folder : string
}.

(** The object [__init__] leaves behind. *)
Record server := {
  srv_config : config;
  _label : string;
  (** the file behind [self._index] *)
  index_file : string;
  (** the file behind [self._hashes] *)
  hashes_file : string;
  (** the folder the session has selected *)
  all_mail : string
}.

Definition T (A : Type) : Type := list call -> (failure + A) * list call.

Definition pure {A} (a : A) : T A := fun calls => (inr a, calls).
Definition fail {A} (f : failure) : T A := fun calls => (inl f, calls).
Definition and_then {A B} (c : T A) (k : A -> T B) : T B :=
  fun calls =>
    match c calls with
    | (inr a, calls') => k a calls'
    | (inl f, calls') => (inl f, calls')
    end.
Definition made (c : call) : T unit := fun calls => (inr tt, calls ++ [c]).

Notation "'let+' x ':=' c 'in' k" := (and_then c (fun x => k))
  (at level 10, x name, c at level 100, k at level 200, only parsing).

(** Truth value of an argument that is a string or [None]. *)
Definition given (v : option string) : bool :=
  match v with
  | Some s => PyStr.truthy s
  | None => false
  end.

(** ['%s' % v] *)
Definition py_str (v : option string) : string :=
  match v with
  | Some s => s
  | None => "None"
  end.

(** The flag of Gmail's all-mail folder, a backslash and [AllMail]. *)
Definition all_mail_flag : string := String backslash "AllMail".

(** The loop over [xlist_folders()] with its [break]. *)
Fixpoint find_all_mail (folders : list (list string * string * string))
  : option string :=
  match folders with
  | [] => None
  | (flags, _, folder_name) :: rest =>
      if existsb (String.eqb all_mail_flag) flags then Some folder_name
      else find_all_mail rest
  end.

Section Session.

Variable W : world.

(** Lines 83 to 114.  When no folder carries the flag, [all_mail] is
    still unbound where line 110 reads it. *)
Definition _login (username password : option string) (label : string) : T string :=
  if negb (given username) || negb (given password) then
    fail (Raised "Missing username or password parameters")
  else
    let+ _ := made (Login (py_str username)) in
    if negb (login_ok W (py_str username) (py_str password)) then
      fail (Raised
        "Cannot login, check username/password, are you using 2-factor auth?")
    else
      let+ found :=
        (if PyStr.truthy label then pure (Some label)
         else let+ _ := made XlistFolders in pure (find_all_mail (xlist_folders W))) in
      match found with
      | None => fail UnboundLocalError
      | Some folder =>
          let+ _ := made (SelectFolder folder true) in
          if select_ok W folder then pure folder
          else fail (Raised ("Cannot select the folder " +:+ folder +:+
                             ", please verify its name"))
      end.

(** ['.index_%s' % (username)] under the application folder. *)
Definition index_path (username : option string) : string :=
  PyStr.path_join (_app_folder W) (".index_" +:+ py_str username).

(** ['.hashes_%s' % (username)] under the application folder. *)
Definition hashes_path (username : option string) : string :=
  PyStr.path_join (_app_folder W) (".hashes_" +:+ py_str username).

(** Lines 38 to 81. *)
Definition __init__ (host username password search : option string)
    (label : string) (use_index use_folders : bool) : T server :=
  if negb (given host) then
    fail (Raised "Missing IMAP host parameter in your config")
  else
    let+ _ := made (Connect (py_str host)) in
    if negb (connect_ok W (py_str host)) then
      fail (Raised "Could not successfully connect to the IMAP host")
    else
      let+ _ := made (OpenShelf (index_path username)) in
      let+ _ := made (OpenShelf (hashes_path username)) in
      let+ folder := _login username password label in
      pure {| srv_config := {| _username := py_str username; _search := search;
                               _use_index := use_index;
                               _use_folders := use_folders |};
              _label := label;
              index_file := index_path username;
              hashes_file := hashes_path username;
              all_mail := folder |}.

End Session.

(** A Gmail account with the usual folders, for examples. *)
Definition gmail : world :=
  {| connect_ok := fun host => String.eqb host "imap.gmail.com";
     login_ok := fun _ password => String.eqb password "app-password";
     xlist_folders :=
       [ ([String backslash "HasNoChildren"], "/", "INBOX");
         ([String backslash "HasNoChildren"; String backslash "AllMail"], "/",
          "[Gmail]/All Mail");
         ([String backslash "HasNoChildren"; String backslash "Trash"], "/",
          "[Gmail]/Trash") ];
     select_ok := fun _ => true;
     _app_folder := "/home/user/.LostPhotosFound" |}.

End Setup.

(** ** A small mailbox for examples *)

Module Demo.

Definition date_2012 : date6 :=
  {| d_year := 2012; d_month := 10; d_day := 28;
     d_hour := 19; d_min := 15; d_sec := 22 |}.

Definition date_header : string := "Sun, 28 Oct 2012 19:15:22 +0000".

(** A header without encoded words decodes to itself. *)
Definition plain_decoder (header : string) : string := header.

Definition next_morning : date6 :=
  {| d_year := 2012; d_month := 10; d_day := 29;
     d_hour := 8; d_min := 0; d_sec := 5 |}.

Definition next_morning_header : string := "Mon, 29 Oct 2012 08:00:05 +0000".

Definition parse_known_date (s : string) : option date6 :=
  if String.eqb s date_header then Some date_2012
  else if String.eqb s next_morning_header then Some next_morning
  else None.

(** The address between angle brackets, or the whole text without them. *)
Definition angle_addr (s : string) : string :=
  match PyStr.split "<" s with
  | [_; tail] => hd EmptyString (PyStr.split ">" tail)
  | _ => s
  end.

(** Stands for the digest in examples, where the source only compares
    digests for equality: the payload in hexadecimal. *)
Definition hex_digit (n : nat) : ascii :=
  match String.get n "0123456789abcdef" with
  | Some c => c
  | None => "0"%char
  end.

Fixpoint toy_digest (payload : bytes) : string :=
  match payload with
  | [] => EmptyString
  | b :: rest =>
      let n := Byte.to_nat b in
      String (hex_digit (n / 16)) (String (hex_digit (n mod 16)) (toy_digest rest))
  end.

Definition text_mail : mail :=
  {| mail_maintype := "text"; mail_from := Some "Bob <bob@example.org>";
     mail_date := Some date_header;
     mail_walk := [ {| part_filename := None;
                       part_content_type_header := Some "text/plain";
                       part_maintype := "text"; part_subtype := "plain";
                       part_disposition := None;
                       part_payload := Some [] |} ] |}.

Definition container : part :=
  {| part_filename := None;
     part_content_type_header := Some "multipart/mixed";
     part_maintype := "multipart"; part_subtype := "mixed";
     part_disposition := None; part_payload := None |}.

Definition image_part (name : string) (payload : bytes) : part :=
  {| part_filename := Some name;
     part_content_type_header := Some "image/jpeg";
     part_maintype := "image"; part_subtype := "jpeg";
     part_disposition := Some "attachment";
     part_payload := Some payload |}.

Definition photo_mail (name : string) (payload : bytes) : mail :=
  {| mail_maintype := "multipart"; mail_from := Some "Bob <bob@example.org>";
     mail_date := Some date_header;
     mail_walk := [container; image_part name payload] |}.


(** A session that finds [handles], answers the identifier fetch from
    [ids] and the body fetch from [bodies]. *)
Definition mailbox (handles : list msg)
    (ids : msg -> option (list string)) (bodies : msg -> option (list mail)) : env :=
  {| _charset_decoder := plain_decoder;
     parsedate := parse_known_date;
     parseaddr := angle_addr;
     sha1_hexdigest := toy_digest;
     types_map := [(".jpg", "image/jpeg"); (".txt", "text/plain");
                   (".png", "image/png")];
     userdir := "/home/user/LostPhotosFound";
     gmail_search := fun _ => Some handles;
     fetch_msgid := ids;
     fetch_rfc822 := bodies;
     write_ok := fun _ _ => true |}.

Definition account (search : option string) : config :=
  {| _username := "me@gmail.com"; _search := search;
     _use_index := true; _use_folders := false |}.

(** A fresh [Server]: empty shelves, nothing on disk, no [seq] attribute. *)
Definition fresh : state :=
  {| _index := ∅; _hashes := ∅; seq := None; files := ∅; dirs := ∅;
     trace := [] |}.

End Demo.

(** The name of the sanitization example, [My "Photo"! (2020).jpg]. *)
Definition photo_2020 : string :=
  "My " +:+ String dquote "Photo" +:+ String dquote "! (2020).jpg".

(** ** Vocabulary of the properties *)

(** Membership in the stripped set. *)
Definition is_punct (c : ascii) : bool :=
  existsb (fun k => Ascii.eqb k c) (list_ascii_of_string punct).



(** Events that create, truncate, fill or remove the file at [path]. *)
Definition touches (path : string) (e : event) : Prop :=
  e = EvOpen path \/ e = EvWrite path \/ e = EvRemove path.

(** Events of the extractor's guarded block. *)
Definition is_extraction_event (e : event) : bool :=
  match e with
  | EvOpen _ | EvDecode | EvWrite _ | EvRemove _ => true
  | _ => false
  end.

(** The calls [_cleanup] makes, in order. *)
Definition cleanup_events : list event :=
  [EvIndexSync; EvIndexClose; EvHashesSync; EvHashesClose; EvCloseFolder; EvLogout].

Definition is_cleanup_event (e : event) : bool :=
  match e with
  | EvIndexSync | EvIndexClose | EvHashesSync | EvHashesClose
  | EvCloseFolder | EvLogout => true
  | _ => false
  end.




(** The name [resolve_name] returns and the path [destination] returns, as
    functions of the part and the message alone ([destination_fst] below
    proves the second equal to what [destination] returns in any state). *)
Definition resolved_name (E : env) (p : part) : result string :=
  if PyStr.contains "None" (decoded_filename E p) then
    match part_content_type_header p with
    | Some ct => Ok (content_type_name ct)
    | None => Err AttributeError
    end
  else if PyStr.truthy (decoded_filename E p) then Ok (decoded_filename E p)
  else Err IndexError.

Definition destination_path (E : env) (C : config) (p : part) (m : mail)
    (sender : string) : result string :=
  match resolved_name E p, mail_date m with
  | Err e, _ => Err e
  | Ok _, None => Err TypeError
  | Ok name, Some raw =>
      match parsedate E (_charset_decoder E raw) with
      | Some d => Ok (PyStr.path_join (savepath E C sender) (filename d name))
      | None => Err TypeError
      end
  end.


(** How the state may move while messages are processed: files, digests
    and index entries are only added, and the calls made are not those of
    [_cleanup]. *)
Definition grows (s s' : state) : Prop :=
  (forall path content,
     files s !! path = Some content -> files s' !! path = Some content) /\
  (forall h, is_Some (_hashes s !! h) -> is_Some (_hashes s' !! h)) /\
  (forall i, is_Some (_index s !! i) -> is_Some (_index s' !! i)) /\
  exists evs, trace s' = trace s ++ evs /\
              Forall (fun e => is_cleanup_event e = false) evs.

(** A computation whose every outcome, normal or not, is related to its
    starting state by [R]. *)
Definition respects {A} (R : state -> state -> Prop) (c : M A) : Prop :=
  forall s r s', c s = (r, s') -> R s s'.


(** A computation that keeps [P] whatever its outcome. *)
Definition keeps {A} (P : state -> Prop) (c : M A) : Prop :=
  forall s r s', P s -> c s = (r, s') -> P s'.

(** The characters of a string. *)
Definition chars (s : string) : list ascii := list_ascii_of_string s.


(** Nothing is left to do for message [h] in state [s]: its identifier is
    in the index, or none of the messages fetched for it is multipart. *)
Definition settled (E : env) (s : state) (h : msg) : Prop :=
  exists msgid ids,
    fetch_msgid E h = Some (msgid :: ids) /\
    (is_Some (_index s !! msgid) \/
     exists msgdata, fetch_rfc822 E h = Some msgdata /\
       Forall (fun m => mail_maintype m <> "multipart") msgdata).

(** The two states differ in the calls made only, and the calls added are
    the search and fetches. *)
Definition only_looked (s s' : state) : Prop :=
  _index s' = _index s /\ _hashes s' = _hashes s /\ seq s' = seq s /\
  files s' = files s /\ dirs s' = dirs s /\
  exists evs, trace s' = trace s ++ evs /\
    Forall (fun e => is_extraction_event e = false /\ is_cleanup_event e = false) evs.

(** Files of [s'] that [s] does not have satisfy [P]. *)
Definition new_files_satisfy (P : string -> Prop) (s s' : state) : Prop :=
  forall path, is_Some (files s' !! path) -> is_Some (files s !! path) \/ P path.

(** ** Reasoning about the monad *)

Lemma bind_inv {A B} (c : M A) (k : A -> M B) s r s' :
  bind c k s = (r, s') ->
  (exists a s1, c s = (Ok a, s1) /\ k a s1 = (r, s')) \/
  (exists e, c s = (Err e, s') /\ r = Err e).
Proof.
  unfold bind. destruct (c s) as [[a|e] s1]; intros H.
  - left. eauto.
  - right. inversion H; subst. eauto.
Qed.

Lemma bind_ok {A B} (c : M A) (k : A -> M B) s b s' :
  bind c k s = (Ok b, s') ->
  exists a s1, c s = (Ok a, s1) /\ k a s1 = (Ok b, s').
Proof.
  intros H. destruct (bind_inv _ _ _ _ _ H) as [?|[e [_ He]]]; [assumption|discriminate].
Qed.

Lemma bind_step {A B} (c : M A) (k : A -> M B) s a s1 :
  c s = (Ok a, s1) -> bind c k s = k a s1.
Proof. unfold bind. intros ->. reflexivity. Qed.

Ltac unfold_m :=
  unfold isfile, isdir, makedirs, open_wb, remove, emit, set_index, set_hashes,
    set_seq, set_files, set_dirs, bind, ret, raise, get_state, modify in *.

Ltac split_cases := repeat case_match; simplify_eq; simpl in *.

(** ** Search criteria *)

(** C3, as the code has it: a non-empty filter string of the caller comes
    first in the criteria, then one space, then the image-extension filter;
    this string is what the mailbox session is asked to search for. *)
Theorem C3_search_precedes_image_filter (E : env) (C : config) (s : string) (st : state) :
  _search C = Some s -> s <> "" ->
  criteria E C = s +:+ " " +:+ image_filter E /\
  trace (snd (_filter_messages E C st)) =
    trace st ++ [EvSearch (s +:+ " " +:+ image_filter E)] /\
  fst (_filter_messages E C st) =
    match gmail_search E (s +:+ " " +:+ image_filter E) with
    | Some messages => Ok messages
    | None => Err (Exception
        "Search criteria returned a failure, it must be a valid gmail search")
    end.
Proof.
  intros Hs Hne.
  assert (Hc : criteria E C = s +:+ " " +:+ image_filter E).
  { unfold criteria, search_given. rewrite Hs.
    destruct s as [|c s']; [congruence|reflexivity]. }
  split; [exact Hc|].
  unfold _filter_messages, bind, emit, modify. rewrite Hc.
  destruct (gmail_search E _); simpl; split; reflexivity.
Qed.

Lemma C3_search_precedes_image_filter_witness :
  let E := Demo.mailbox [] (fun _ => None) (fun _ => None) in
  criteria E (Demo.account (Some "from:bob")) =
    "from:bob has:attachment filename:(jpg OR png)".
Proof.
  intros E.
  exact (proj1 (C3_search_precedes_image_filter E (Demo.account (Some "from:bob"))
                  "from:bob" Demo.fresh eq_refl ltac:(discriminate))).
Defined.

(** The image-extension filter does not come first: with the filter string
    [from:bob] the criteria start with it, so they are not the image filter
    followed by the caller's string, whatever separates the two. *)
Lemma C3_counterexample :
  let E := Demo.mailbox [] (fun _ => None) (fun _ => None) in
  let C := Demo.account (Some "from:bob") in
  criteria E C = "from:bob has:attachment filename:(jpg OR png)" /\
  ~ (exists sep, criteria E C = image_filter E +:+ sep +:+ "from:bob").
Proof.
  split; [reflexivity|].
  intros [sep H]. vm_compute in H. discriminate H.
Qed.

(** ** Filename sanitization *)

Lemma table_get_fromkeys (chars : list ascii) (c : ascii) :
  PyStr.table_get (map (fun k => (k, None)) chars) c =
  if existsb (fun k => Ascii.eqb k c) chars then Some None else None.
Proof.
  induction chars as [|k chars IH]; simpl; [reflexivity|].
  destruct (Ascii.eqb k c); simpl; [reflexivity|exact IH].
Qed.

Lemma sanitize_filter (name : string) :
  sanitize name =
  string_of_list_ascii
    (List.filter (fun c => negb (is_punct c)) (list_ascii_of_string name)).
Proof.
  unfold sanitize, PyStr.fromkeys, is_punct.
  induction name as [|c name IH]; [reflexivity|].
  cbn [PyStr.translate list_ascii_of_string List.filter].
  rewrite table_get_fromkeys.
  destruct (existsb _ _); cbn [negb string_of_list_ascii]; rewrite IH; reflexivity.
Qed.

(** C4, as the code has it: sanitizing deletes exactly the characters of
    the fixed set and keeps every other character in place; the set holds
    neither parenthesis, so [My "Photo"! (2020).jpg] loses its two double
    quotes and its exclamation mark only, and the file name is the date
    prefix followed by [My Photo (2020).jpg]. *)
Theorem C4_sanitize_strips_fixed_set :
  (forall name : string,
     sanitize name =
     string_of_list_ascii
       (List.filter (fun c => negb (is_punct c)) (list_ascii_of_string name))) /\
  (forall c : ascii,
     is_punct c = true <->
     In c (list_ascii_of_string
             (String "!" (String dquote ("#$&'*+/;<>?[" +:+ String backslash "]^`{|}~"))))) /\
  sanitize photo_2020 = "My Photo (2020).jpg" /\
  filename Demo.date_2012 photo_2020 = "2012-10-28_19-15-22_My Photo (2020).jpg".
Proof.
  split; [exact sanitize_filter|].
  split; [|split; reflexivity].
  intros c. unfold is_punct. rewrite existsb_exists. fold punct. split.
  - intros [k [Hin Heq]]. apply Ascii.eqb_eq in Heq. subst. exact Hin.
  - intros Hin. exists c. split; [exact Hin|apply Ascii.eqb_refl].
Qed.

(** The parentheses stay: the sanitized form of [My "Photo"! (2020).jpg]
    still holds an opening parenthesis. *)
Lemma C4_counterexample :
  sanitize photo_2020 = "My Photo (2020).jpg" /\
  ~ (forall c : ascii,
       In c [dquote; "!"; "("; ")"]%char ->
       ~ In c (list_ascii_of_string (sanitize photo_2020))).
Proof.
  split; [reflexivity|].
  intros H. apply (H "("%char); vm_compute; tauto.
Qed.

(** ** The filename policy *)

Lemma resolve_name_frame (E : env) (p : part) (s : state) r s' :
  resolve_name E p s = (r, s') ->
  _index s' = _index s /\ _hashes s' = _hashes s /\ files s' = files s /\
  dirs s' = dirs s /\ trace s' = trace s.
Proof.
  unfold resolve_name, init_seq. unfold_m.
  intros H. split_cases; auto.
Qed.

(** Indexing a string twice at zero gives a one-character string, which is
    never false: the test guarding the synthesized name cannot succeed. *)
Lemma first_char_truthy (s c0 c00 : string) :
  PyStr.index s 0 = Some c0 -> PyStr.index c0 0 = Some c00 -> PyStr.truthy c00 = true.
Proof.
  unfold PyStr.index. destruct s as [|a s]; simpl; [discriminate|].
  intros [= <-]. simpl. intros [= <-]. reflexivity.
Qed.








(** ** Eligibility of parts *)




(** ** The extractor's effects *)

Lemma destination_frame (E : env) (C : config) (p : part) (m : mail)
    (sender : string) (s : state) r s' :
  destination E C p m sender s = (r, s') ->
  _index s' = _index s /\ _hashes s' = _hashes s /\ files s' = files s /\
  (trace s' = trace s \/ trace s' = trace s ++ [EvMakedirs (savepath E C sender)]).
Proof.
  unfold destination, header_date, resolve_name, init_seq. unfold_m.
  intros H. split_cases; auto.
Qed.

Lemma store_payload_cases (E : env) (p : part) (saved : string) (s : state) :
  store_payload E p saved s =
  if bool_decide (is_Some (files s !! saved)) then (Ok tt, s)
  else
    let s1 := add_event EvDecode
                (put_files (<[saved := []]> (files s)) (add_event (EvOpen saved) s)) in
    match part_payload p with
    | None =>
        (Err (Exception ("Failed when downloading attachment: " +:+ saved)), s1)
    | Some payload =>
        let h := sha1_hexdigest E payload in
        if bool_decide (is_Some (_hashes s !! h))
        then (Ok tt, put_files (delete saved (files s1)) (add_event (EvRemove saved) s1))
        else
          let s2 := add_event (EvWrite saved) s1 in
          if write_ok E saved payload
          then (Ok tt, put_hashes (<[h := h]> (_hashes s))
                         (put_files (<[saved := payload]> (files s2)) s2))
          else (Err (Exception ("Failed writing attachment to file: " +:+ saved)), s2)
    end.
Proof.
  unfold store_payload, decode_payload, write_payload. unfold_m. simpl.
  split_cases; try reflexivity; try congruence.
Qed.

(** C6: when the destination path has been computed and a file is already
    there, the extractor returns normally in the state the path computation
    left: no file is opened, written or removed, the payload is not decoded
    (the part may even have none that decodes), and the hash shelf, the
    index and the disk's files are as before the call. *)
Theorem C6_existing_destination_is_skipped
    (E : env) (C : config) (p : part) (m : mail) (sender saved : string)
    (st st1 : state) :
  destination E C p m sender st = (Ok saved, st1) ->
  is_Some (files st !! saved) ->
  _save_part E C p m sender st = (Ok tt, st1) /\
  files st1 = files st /\ _hashes st1 = _hashes st /\ _index st1 = _index st /\
  exists evs, trace st1 = trace st ++ evs /\
              Forall (fun e => is_extraction_event e = false) evs.
Proof.
  intros Hd Hfile.
  destruct (destination_frame _ _ _ _ _ _ _ _ Hd) as (Hi & Hh & Hf & Ht).
  split.
  - unfold _save_part. rewrite (bind_step _ _ _ _ _ Hd).
    rewrite store_payload_cases, Hf. rewrite bool_decide_eq_true_2 by exact Hfile.
    reflexivity.
  - repeat split; try assumption.
    destruct Ht as [Ht|Ht].
    + exists []. rewrite app_nil_r. split; [exact Ht|constructor].
    + eexists. split; [exact Ht|]. repeat constructor.
Qed.

Lemma C6_existing_destination_is_skipped_witness :
  let E := Demo.mailbox [] (fun _ => None) (fun _ => None) in
  let path := "/home/user/LostPhotosFound/me@gmail.com/2012-10-28_19-15-22_a.jpg" in
  let st := put_files {[ path := [Byte.x07] ]} Demo.fresh in
  let undecodable :=
    {| part_filename := Some "a.jpg"; part_content_type_header := Some "image/jpeg";
       part_maintype := "image"; part_subtype := "jpeg";
       part_disposition := None; part_payload := None |} in
  fst (_save_part E (Demo.account None) undecodable (Demo.photo_mail "a.jpg" []) "bob" st)
    = Ok tt /\
  files (snd (_save_part E (Demo.account None) undecodable
                (Demo.photo_mail "a.jpg" []) "bob" st)) = {[ path := [Byte.x07] ]}.
Proof.
  intros E path st undecodable.
  pose proof (C6_existing_destination_is_skipped E (Demo.account None) undecodable
                (Demo.photo_mail "a.jpg" []) "bob" path st
                (snd (destination E (Demo.account None) undecodable
                        (Demo.photo_mail "a.jpg" []) "bob" st))
                eq_refl ltac:(vm_compute; eauto)) as (Hrun & Hfiles & _).
  rewrite Hrun. split; [reflexivity|exact Hfiles].
Defined.

(** ** Monotone steps *)

Lemma respects_bind {A B} (R : state -> state -> Prop)
    (c : M A) (k : A -> M B) :
  Transitive R -> respects R c -> (forall a, respects R (k a)) ->
  respects R (bind c k).
Proof.
  intros HT Hc Hk s r s' H.
  destruct (bind_inv _ _ _ _ _ H) as [(a & s1 & H1 & H2)|(e & H1 & _)].
  - etransitivity; [exact (Hc _ _ _ H1)|exact (Hk _ _ _ _ H2)].
  - exact (Hc _ _ _ H1).
Qed.


Lemma respects_ret {A} (R : state -> state -> Prop) (a : A) :
  Reflexive R -> respects R (ret a).
Proof. intros HR s r s' [= <- <-]. reflexivity. Qed.

Lemma respects_raise {A} (R : state -> state -> Prop) (e : error) :
  Reflexive R -> respects R (@raise A e).
Proof. intros HR s r s' [= <- <-]. reflexivity. Qed.



Global Instance grows_refl : Reflexive grows.
Proof.
  intros s. repeat split; auto.
  exists []. rewrite app_nil_r. split; [reflexivity|constructor].
Qed.

Global Instance grows_trans : Transitive grows.
Proof.
  intros s1 s2 s3 (Hf & Hh & Hi & evs & Ht & Hq) (Hf' & Hh' & Hi' & evs' & Ht' & Hq').
  repeat split; auto.
  exists (evs ++ evs'). split.
  - rewrite Ht', Ht, app_assoc. reflexivity.
  - apply Forall_app. split; assumption.
Qed.

(** A step that leaves the disk and both shelves alone and makes one call
    that is not a cleanup call, or none. *)
Lemma grows_same_stores (s s' : state) (evs : list event) :
  files s' = files s -> _hashes s' = _hashes s -> _index s' = _index s ->
  trace s' = trace s ++ evs ->
  Forall (fun e => is_cleanup_event e = false) evs ->
  grows s s'.
Proof.
  intros Hf Hh Hi Ht Hq. unfold grows. rewrite Hf, Hh, Hi.
  repeat split; auto. exists evs. auto.
Qed.

Lemma emit_grows (e : event) :
  is_cleanup_event e = false -> respects grows (emit e).
Proof.
  intros He s r s' [= <- <-].
  apply (grows_same_stores _ _ [e]); try reflexivity. repeat constructor. exact He.
Qed.

Lemma destination_grows (E : env) (C : config) (p : part) (m : mail) (sender : string) :
  respects grows (destination E C p m sender).
Proof.
  intros s r s' H.
  destruct (destination_frame _ _ _ _ _ _ _ _ H) as (Hi & Hh & Hf & [Ht|Ht]).
  - apply (grows_same_stores _ _ []); auto. rewrite app_nil_r. exact Ht.
  - eapply grows_same_stores; eauto; repeat constructor.
Qed.

(** What [store_payload] does to a state, whatever its outcome: files that
    were there stay as they were, and the file events are on [saved], which
    was not on disk, or there are none. *)
Lemma store_payload_effects (E : env) (p : part) (saved : string) (s : state) r s' :
  store_payload E p saved s = (r, s') ->
  grows s s' /\
  exists evs, trace s' = trace s ++ evs /\
    forall q e, In e evs -> touches q e -> files s !! q = None.
Proof.
  rewrite store_payload_cases. intros H.
  case_bool_decide as Hex.
  { simplify_eq. split; [reflexivity|].
    exists []. rewrite app_nil_r. split; [reflexivity|]. intros q e []. }
  assert (Hnone : files s !! saved = None) by (apply eq_None_not_Some; exact Hex).
  assert (Hne : forall path content, files s !! path = Some content -> saved <> path)
    by (intros path content Hp ->; congruence).
  assert (Hfresh : forall evs,
            Forall (fun e => forall q, touches q e -> q = saved) evs ->
            forall q e, In e evs -> touches q e -> files s !! q = None).
  { intros evs Hall q e Hin Ht. rewrite Forall_forall in Hall.
    apply list_elem_of_In in Hin. rewrite (Hall e Hin q Ht). exact Hnone. }
  assert (Hon : forall e, (e = EvOpen saved \/ e = EvDecode \/ e = EvWrite saved \/
                           e = EvRemove saved) ->
                forall q, touches q e -> q = saved).
  { intros e He q [Hq|[Hq|Hq]]; destruct He as [He|[He|[He|He]]]; congruence. }
  cbv zeta in H.
  destruct (part_payload p) as [payload|].
  2:{ simplify_eq. split.
      - unfold grows. simpl. split; [|split; [|split]]; auto.
        + intros path content Hp. rewrite lookup_insert_ne by eauto. exact Hp.
        + exists [EvOpen saved; EvDecode]. rewrite <- app_assoc.
          split; [reflexivity|repeat constructor].
      - exists [EvOpen saved; EvDecode]. 
        split; [simpl; rewrite <- app_assoc; reflexivity|]. apply Hfresh. repeat constructor; apply Hon; auto. }
  case_bool_decide as Hdup.
  { simplify_eq. split.
    - unfold grows. simpl. split; [|split; [|split]]; auto.
      + intros path content Hp.
        rewrite lookup_delete_ne, lookup_insert_ne by eauto. exact Hp.
      + exists [EvOpen saved; EvDecode; EvRemove saved]. rewrite <- !app_assoc.
        split; [reflexivity|repeat constructor].
    - exists [EvOpen saved; EvDecode; EvRemove saved]. 
      split; [simpl; rewrite <- !app_assoc; reflexivity|]. apply Hfresh. repeat constructor; apply Hon; auto. }
  destruct (write_ok E saved payload); simplify_eq; split.
  - unfold grows. simpl. split; [|split; [|split]]; auto.
    + intros path content Hp. rewrite !lookup_insert_ne by eauto. exact Hp.
    + intros h Hh. destruct (decide (sha1_hexdigest E payload = h)) as [->|Hneq].
      * rewrite lookup_insert_eq. eauto.
      * rewrite lookup_insert_ne by exact Hneq. exact Hh.
    + exists [EvOpen saved; EvDecode; EvWrite saved]. rewrite <- !app_assoc.
      split; [reflexivity|repeat constructor].
  - exists [EvOpen saved; EvDecode; EvWrite saved]. 
    split; [simpl; rewrite <- !app_assoc; reflexivity|]. apply Hfresh. repeat constructor; apply Hon; auto.
  - unfold grows. simpl. split; [|split; [|split]]; auto.
    + intros path content Hp. rewrite lookup_insert_ne by eauto. exact Hp.
    + exists [EvOpen saved; EvDecode; EvWrite saved]. rewrite <- !app_assoc.
      split; [reflexivity|repeat constructor].
  - exists [EvOpen saved; EvDecode; EvWrite saved]. 
    split; [simpl; rewrite <- !app_assoc; reflexivity|]. apply Hfresh. repeat constructor; apply Hon; auto.
Qed.

Lemma _save_part_grows (E : env) (C : config) (p : part) (m : mail) (sender : string) :
  respects grows (_save_part E C p m sender).
Proof.
  unfold _save_part. apply respects_bind; [apply _|apply destination_grows|].
  intros saved s r s' H. exact (proj1 (store_payload_effects _ _ _ _ _ _ H)).
Qed.

(** C9: whatever the outcome of a call to the extractor, every file that
    was on disk before the call is there afterwards with the same bytes, the
    file at the destination among them; a file is created, truncated,
    written or removed only at a path that held no file when the call
    started. *)
Theorem C9_existing_files_untouched
    (E : env) (C : config) (p : part) (m : mail) (sender : string)
    (st st' : state) (r : result unit) :
  _save_part E C p m sender st = (r, st') ->
  (forall path content,
     files st !! path = Some content -> files st' !! path = Some content) /\
  exists evs, trace st' = trace st ++ evs /\
    forall q e, In e evs -> touches q e -> files st !! q = None.
Proof.
  intros H. split.
  - exact (proj1 (_save_part_grows E C p m sender _ _ _ H)).
  - unfold _save_part in H.
    destruct (bind_inv _ _ _ _ _ H) as [(saved & s1 & H1 & H2)|(err & H1 & _)].
    + destruct (destination_frame _ _ _ _ _ _ _ _ H1) as (_ & _ & Hf & Ht).
      destruct (store_payload_effects _ _ _ _ _ _ H2) as (_ & evs & Hevs & Hfresh).
      rewrite Hf in Hfresh.
      destruct Ht as [Ht|Ht]; rewrite Hevs, Ht.
      * exists evs. split; [reflexivity|exact Hfresh].
      * exists (EvMakedirs (savepath E C sender) :: evs).
        split; [rewrite <- app_assoc; reflexivity|].
        intros q e [<-|Hin] Hq; [|exact (Hfresh q e Hin Hq)].
        destruct Hq as [Hq|[Hq|Hq]]; discriminate Hq.
    + destruct (destination_frame _ _ _ _ _ _ _ _ H1) as (_ & _ & _ & Ht).
      destruct Ht as [Ht|Ht]; rewrite Ht.
      * exists []. rewrite app_nil_r. split; [reflexivity|intros q e []].
      * eexists. split; [reflexivity|].
        intros q e [<-|[]] Hq. destruct Hq as [Hq|[Hq|Hq]]; discriminate Hq.
Qed.

Lemma C9_existing_files_untouched_witness :
  let E := Demo.mailbox [] (fun _ => None) (fun _ => None) in
  let old := "/home/user/LostPhotosFound/me@gmail.com/2012-10-28_19-15-22_old.jpg" in
  let st := put_hashes {[ "07" := "07" ]} (put_files {[ old := [Byte.x07] ]} Demo.fresh) in
  files (snd (_save_part E (Demo.account None) (Demo.image_part "new.jpg" [Byte.x07])
                (Demo.photo_mail "new.jpg" []) "bob" st)) !! old = Some [Byte.x07].
Proof.
  intros E old st.
  exact (proj1 (C9_existing_files_untouched E (Demo.account None)
                  (Demo.image_part "new.jpg" [Byte.x07]) (Demo.photo_mail "new.jpg" [])
                  "bob" st _ _ (surjective_pairing _))
           old [Byte.x07] eq_refl).
Defined.

(** ** The message loop only adds *)

Lemma walk_parts_grows (E : env) (C : config) (parts : list part) (m : mail)
    (sender : string) :
  respects grows (walk_parts E C parts m sender).
Proof.
  induction parts as [|p rest IH]; cbn [walk_parts].
  - apply respects_ret, _.
  - apply respects_bind; [apply _| |intros _; exact IH].
    destruct (eligible p); [apply _save_part_grows|apply respects_ret, _].
Qed.

Lemma record_processed_grows (msgid : string) :
  respects grows
    (bind get_state (fun s => set_index (<[msgid := msgid]> (_index s)))).
Proof.
  intros s r s' [= <- <-]. unfold grows. simpl. repeat split; auto.
  - intros i Hi. destruct (decide (msgid = i)) as [->|Hne].
    + rewrite lookup_insert_eq. eauto.
    + rewrite lookup_insert_ne by exact Hne. exact Hi.
  - exists []. rewrite app_nil_r. split; [reflexivity|constructor].
Qed.

Lemma process_mail_grows (E : env) (C : config) (msgid : string) (m : mail) :
  respects grows (process_mail E C msgid m).
Proof.
  unfold process_mail. destruct (negb _); [apply respects_ret, _|].
  destruct (mail_from m) as [from|]; [|apply respects_raise, _].
  apply respects_bind; [apply _|apply walk_parts_grows|].
  intros _. apply record_processed_grows.
Qed.

Lemma process_msgdata_grows (E : env) (C : config) (msgid : string) (msgdata : list mail) :
  respects grows (process_msgdata E C msgid msgdata).
Proof.
  induction msgdata as [|m rest IH]; cbn [process_msgdata].
  - apply respects_ret, _.
  - apply respects_bind; [apply _|apply process_mail_grows|intros _; exact IH].
Qed.

Lemma process_message_grows (E : env) (C : config) (h : msg) :
  respects grows (process_message E C h).
Proof.
  unfold process_message.
  apply respects_bind; [apply _|apply emit_grows; reflexivity|]. intros _.
  destruct (fetch_msgid E h) as [[|msgid ids]|]; try apply respects_raise, _.
  apply respects_bind; [apply _| |].
  { intros s r s' [= <- <-]. reflexivity. }
  intros s. destruct (_ && _); [apply respects_ret, _|].
  apply respects_bind; [apply _|apply emit_grows; reflexivity|]. intros _.
  destruct (fetch_rfc822 E h); [apply process_msgdata_grows|apply respects_raise, _].
Qed.

Lemma process_messages_grows (E : env) (C : config) (messages : list msg) :
  respects grows (process_messages E C messages).
Proof.
  induction messages as [|h rest IH]; cbn [process_messages].
  - apply respects_ret, _.
  - apply respects_bind; [apply _|apply process_message_grows|intros _; exact IH].
Qed.

Lemma _filter_messages_grows (E : env) (C : config) :
  respects grows (_filter_messages E C).
Proof.
  unfold _filter_messages.
  apply respects_bind; [apply _|apply emit_grows; reflexivity|]. intros _.
  destruct (gmail_search E _); [apply respects_ret, _|apply respects_raise, _].
Qed.

Lemma _cleanup_result (s : state) :
  exists s', _cleanup s = (Ok tt, s') /\
    files s' = files s /\ _hashes s' = _hashes s /\ _index s' = _index s /\
    trace s' = trace s ++ cleanup_events.
Proof.
  eexists. split; [reflexivity|]. simpl. repeat split.
  rewrite <- !app_assoc. reflexivity.
Qed.

(** ** Cleanup *)



(** ** Messages that are not multipart *)

Lemma process_mail_non_multipart (E : env) (C : config) (msgid : string) (m : mail)
    (s : state) :
  mail_maintype m <> "multipart" -> process_mail E C msgid m s = (Ok tt, s).
Proof.
  intros Hne. unfold process_mail.
  destruct (String.eqb_spec (mail_maintype m) "multipart") as [Heq|_]; [congruence|].
  reflexivity.
Qed.

Lemma walk_parts_skip (E : env) (C : config) (skipped rest : list part) (m : mail)
    (sender : string) (s : state) :
  Forall (fun q => eligible q = false) skipped ->
  walk_parts E C (skipped ++ rest) m sender s = walk_parts E C rest m sender s.
Proof.
  induction 1 as [|q skipped Hq _ IH]; [reflexivity|].
  cbn [app walk_parts]. rewrite Hq. exact IH.
Qed.

(** A multipart message none of whose parts is an image is recorded. *)
Lemma process_mail_no_image (E : env) (C : config) (msgid : string) (m : mail)
    (s : state) :
  mail_maintype m = "multipart" ->
  is_Some (mail_from m) ->
  Forall (fun q => eligible q = false) (mail_walk m) ->
  process_mail E C msgid m s = (Ok tt, put_index (<[msgid := msgid]> (_index s)) s).
Proof.
  intros Hm [from Hfrom] Hall.
  assert (Hw : walk_parts E C (mail_walk m) m (sender_of E from) s = (Ok tt, s)).
  { pose proof (walk_parts_skip E C (mail_walk m) [] m (sender_of E from) s Hall) as Hs.
    rewrite app_nil_r in Hs. exact Hs. }
  unfold process_mail. rewrite Hm, Hfrom.
  change (negb (String.eqb "multipart" "multipart")) with false. cbv iota.
  rewrite (bind_step _ _ _ _ _ Hw). reflexivity.
Qed.

(** C1 at a mailbox whose one match, identifier 101, is a [text/plain]
    message: the run completes and writes no file, and the index does not
    hold 101 afterwards, so the next run fetches the body again.  The
    [continue] of line 261 leaves the loop body before line 293 records the
    identifier; a multipart message without any image part, which yields no
    file either, is recorded. *)
Theorem C1_non_multipart_mail_is_not_recorded :
  let E := Demo.mailbox [7%Z] (fun _ => Some ["101"]) (fun _ => Some [Demo.text_mail]) in
  let first := lostphotosfound E (Demo.account None) Demo.fresh in
  let second := lostphotosfound E (Demo.account None) (snd first) in
  fst first = Ok tt /\
  files (snd first) = ∅ /\
  _index (snd first) !! "101" = None /\
  trace (snd second) =
    trace (snd first) ++
    [EvSearch "has:attachment filename:(jpg OR png)"; EvFetchId 7%Z; EvFetchBody 7%Z] ++
    cleanup_events /\
  let no_image :=
    {| mail_maintype := "multipart"; mail_from := Some "Bob <bob@example.org>";
       mail_date := Some Demo.date_header; mail_walk := [Demo.container] |} in
  let E' := Demo.mailbox [7%Z] (fun _ => Some ["101"]) (fun _ => Some [no_image]) in
  files (snd (lostphotosfound E' (Demo.account None) Demo.fresh)) = ∅ /\
  _index (snd (lostphotosfound E' (Demo.account None) Demo.fresh)) !! "101" = Some "101".
Proof.
  repeat split; vm_compute; reflexivity.
Qed.

(** ** Deduplication by content *)












(** The path does not depend on the state: the branch that would read the
    counter is never taken. *)
Lemma destination_fst (E : env) (C : config) (p : part) (m : mail) (sender : string)
    (s : state) :
  fst (destination E C p m sender s) = destination_path E C p m sender.
Proof.
  unfold destination, destination_path, resolved_name, header_date, resolve_name,
    init_seq. unfold_m.
  destruct (PyStr.contains "None" (decoded_filename E p)).
  - destruct (seq s), (part_content_type_header p), (mail_date m) as [raw|];
      simpl; try reflexivity;
      destruct (parsedate E (_charset_decoder E raw)); simpl; try reflexivity;
      case_bool_decide; reflexivity.
  - destruct (decoded_filename E p) as [|a name]; [destruct (seq s); reflexivity|].
    destruct (seq s), (mail_date m) as [raw|]; simpl; try reflexivity;
      destruct (parsedate E (_charset_decoder E raw)); simpl; try reflexivity;
      case_bool_decide; reflexivity.
Qed.


Lemma process_messages_app (E : env) (C : config) (before after : list msg) (s : state) :
  process_messages E C (before ++ after) s =
  bind (process_messages E C before) (fun _ => process_messages E C after) s.
Proof.
  revert s. induction before as [|h before IH]; intros s; [reflexivity|].
  cbn [app process_messages]. unfold bind.
  destruct (process_message E C h s) as [[[]|e] s1]; [|reflexivity].
  rewrite IH. reflexivity.
Qed.





(** ** Opening the session *)

Lemma append_assoc (a b c : string) : (a +:+ b) +:+ c = a +:+ (b +:+ c).
Proof.
  induction a as [|x a IH]; [reflexivity|].
  change (String x ((a +:+ b) +:+ c) = String x (a +:+ (b +:+ c))).
  rewrite IH. reflexivity.
Qed.

Lemma append_cancel_l (a x y : string) : a +:+ x = a +:+ y -> x = y.
Proof.
  induction a as [|c a IH]; [exact id|].
  change (String c (a +:+ x) = String c (a +:+ y) -> x = y).
  intros [= H]. exact (IH H).
Qed.

(** Joining a name that does not start with a slash keeps the directory in
    front, with one slash put in between unless the directory ends in one
    or is empty. *)
Lemma path_join_relative (a b : string) :
  String.prefix "/" b = false ->
  PyStr.path_join a b =
  (if negb (PyStr.truthy a) || PyStr.ends_with_slash a then a else a +:+ "/") +:+ b.
Proof.
  intros Hb. unfold PyStr.path_join. rewrite Hb.
  destruct (negb (PyStr.truthy a) || PyStr.ends_with_slash a); cbv iota;
    [reflexivity|symmetry; apply append_assoc].
Qed.

Lemma path_join_cancel (a b1 b2 : string) :
  String.prefix "/" b1 = false -> String.prefix "/" b2 = false ->
  PyStr.path_join a b1 = PyStr.path_join a b2 -> b1 = b2.
Proof.
  intros H1 H2. rewrite !path_join_relative by assumption. apply append_cancel_l.
Qed.

(** X1: the index file and the hash file of an account are two files, and
    two accounts with different user names share neither. *)
Theorem store_files_are_separate (W : Setup.world) (u1 u2 : string) :
  u1 <> u2 ->
  Setup.index_path W (Some u1) <> Setup.index_path W (Some u2) /\
  Setup.hashes_path W (Some u1) <> Setup.hashes_path W (Some u2) /\
  Setup.index_path W (Some u1) <> Setup.hashes_path W (Some u1) /\
  Setup.index_path W (Some u1) <> Setup.hashes_path W (Some u2).
Proof.
  intros Hne. unfold Setup.index_path, Setup.hashes_path, Setup.py_str.
  repeat split; intros H; apply path_join_cancel in H; try reflexivity;
    try discriminate H; injection H as H; contradiction.
Qed.

Lemma store_files_are_separate_witness :
  Setup.index_path Setup.gmail (Some "ann@gmail.com") <>
  Setup.index_path Setup.gmail (Some "bob@gmail.com").
Proof.
  exact (proj1 (store_files_are_separate Setup.gmail "ann@gmail.com" "bob@gmail.com"
                  ltac:(discriminate))).
Defined.

Lemma find_all_mail_first (folders : list (list string * string * string))
    (name : string) :
  Setup.find_all_mail folders = Some name ->
  exists before flags delimiter after,
    folders = before ++ (flags, delimiter, name) :: after /\
    In Setup.all_mail_flag flags /\
    Forall (fun entry => ~ In Setup.all_mail_flag (fst (fst entry))) before.
Proof.
  induction folders as [|[[flags delimiter] folder_name] rest IH]; [discriminate|].
  cbn [Setup.find_all_mail].
  destruct (existsb (String.eqb Setup.all_mail_flag) flags) eqn:Hflag.
  - intros [= <-]. exists [], flags, delimiter, rest. split; [reflexivity|].
    split; [|constructor].
    apply existsb_exists in Hflag. destruct Hflag as (f & Hin & Heq).
    apply String.eqb_eq in Heq. subst f. exact Hin.
  - intros H. destruct (IH H) as (before & flags' & d' & after & -> & Hin & Hall).
    exists ((flags, delimiter, folder_name) :: before), flags', d', after.
    split; [reflexivity|]. split; [exact Hin|]. constructor; [|exact Hall].
    cbn [fst]. intros Hin'.
    assert (existsb (String.eqb Setup.all_mail_flag) flags = true) as Habs.
    { apply existsb_exists. exists Setup.all_mail_flag.
      split; [exact Hin'|apply String.eqb_refl]. }
    congruence.
Qed.

(** X2: when [_login] returns, the folder it has selected is the label if
    one was given, and otherwise the first folder of the listing that
    carries the all-mail flag; the folders are listed only when no label was
    given, and the one selection made is read-only. *)
Theorem login_selects_label_or_first_all_mail
    (W : Setup.world) (username password : option string) (label folder : string)
    (calls calls' : list Setup.call) :
  Setup._login W username password label calls = (inr folder, calls') ->
  calls' = calls ++ [Setup.Login (Setup.py_str username)] ++
           (if PyStr.truthy label then [] else [Setup.XlistFolders]) ++
           [Setup.SelectFolder folder true] /\
  if PyStr.truthy label then folder = label
  else exists before flags delimiter after,
         Setup.xlist_folders W = before ++ (flags, delimiter, folder) :: after /\
         In Setup.all_mail_flag flags /\
         Forall (fun entry => ~ In Setup.all_mail_flag (fst (fst entry))) before.
Proof.
  unfold Setup._login, Setup.and_then, Setup.made, Setup.pure, Setup.fail.
  destruct (negb (Setup.given username) || negb (Setup.given password)); [discriminate|].
  destruct (negb (Setup.login_ok W _ _)); [discriminate|].
  destruct (PyStr.truthy label).
  - destruct (Setup.select_ok W label); [|discriminate].
    intros [= <- <-]. split; [|reflexivity]. rewrite <- app_assoc. reflexivity.
  - destruct (Setup.find_all_mail (Setup.xlist_folders W)) as [found|] eqn:Hfind;
      [|discriminate].
    destruct (Setup.select_ok W found); [|discriminate].
    intros [= <- <-]. split; [rewrite <- !app_assoc; reflexivity|].
    exact (find_all_mail_first _ _ Hfind).
Qed.

Lemma login_selects_label_or_first_all_mail_witness :
  exists before flags delimiter after,
    Setup.xlist_folders Setup.gmail =
      before ++ (flags, delimiter, "[Gmail]/All Mail") :: after /\
    In Setup.all_mail_flag flags /\
    Forall (fun entry => ~ In Setup.all_mail_flag (fst (fst entry))) before.
Proof.
  exact (proj2 (login_selects_label_or_first_all_mail Setup.gmail
                  (Some "me@gmail.com") (Some "app-password") "" "[Gmail]/All Mail"
                  [] _ eq_refl)).
Defined.

(** X3: without a label, on an account none of whose folders carries the
    all-mail flag, [_login] logs in, lists the folders and then fails on
    the unbound [all_mail]; no folder is selected. *)
Theorem login_without_all_mail_folder_is_unbound
    (W : Setup.world) (username password : option string) (label : string)
    (calls : list Setup.call) :
  Setup.given username = true -> Setup.given password = true ->
  Setup.login_ok W (Setup.py_str username) (Setup.py_str password) = true ->
  PyStr.truthy label = false ->
  Forall (fun entry => ~ In Setup.all_mail_flag (fst (fst entry))) (Setup.xlist_folders W) ->
  Setup._login W username password label calls =
    (inl Setup.UnboundLocalError,
     calls ++ [Setup.Login (Setup.py_str username); Setup.XlistFolders]).
Proof.
  intros Hu Hp Hlogin Hlabel Hnone.
  assert (Hfind : Setup.find_all_mail (Setup.xlist_folders W) = None).
  { destruct (Setup.find_all_mail (Setup.xlist_folders W)) as [name|] eqn:Hfind;
      [|reflexivity].
    destruct (find_all_mail_first _ _ Hfind) as (before & flags & d & after & Heq & Hin & _).
    rewrite Heq in Hnone. apply Forall_app in Hnone. destruct Hnone as [_ Hnone].
    inversion Hnone as [|? ? Hhead _]. destruct (Hhead Hin). }
  unfold Setup._login, Setup.and_then, Setup.made, Setup.pure, Setup.fail.
  rewrite Hu, Hp, Hlogin, Hlabel, Hfind. cbn [negb orb].
  rewrite <- app_assoc. reflexivity.
Qed.

Lemma login_without_all_mail_folder_is_unbound_witness :
  let W := {| Setup.connect_ok := fun _ => true; Setup.login_ok := fun _ _ => true;
              Setup.xlist_folders := [([String backslash "HasNoChildren"], "/", "INBOX")];
              Setup.select_ok := fun _ => true;
              Setup._app_folder := "/home/user/.LostPhotosFound" |} in
  Setup._login W (Some "me@example.org") (Some "secret") "" [] =
    (inl Setup.UnboundLocalError, [Setup.Login "me@example.org"; Setup.XlistFolders]).
Proof.
  intros W.
  refine (login_without_all_mail_folder_is_unbound W (Some "me@example.org")
            (Some "secret") "" [] eq_refl eq_refl eq_refl eq_refl _).
  repeat constructor. cbn. intros [H|[]]. discriminate H.
Defined.

(** X4: [__init__] looks at the user name and the password only after it
    has connected to the host and opened both shelves: with either of them
    missing it fails, the connection made and the two files opened, and no
    login attempted.  A missing host is refused before any call. *)
Theorem init_checks_credentials_last
    (W : Setup.world) (host username password search : option string)
    (label : string) (use_index use_folders : bool) :
  (Setup.given host = false ->
   Setup.__init__ W host username password search label use_index use_folders [] =
     (inl (Setup.Raised "Missing IMAP host parameter in your config"), [])) /\
  (Setup.given host = true -> Setup.connect_ok W (Setup.py_str host) = true ->
   Setup.given username = false \/ Setup.given password = false ->
   Setup.__init__ W host username password search label use_index use_folders [] =
     (inl (Setup.Raised "Missing username or password parameters"),
      [Setup.Connect (Setup.py_str host);
       Setup.OpenShelf (Setup.index_path W username);
       Setup.OpenShelf (Setup.hashes_path W username)])).
Proof.
  split.
  - intros Hh. unfold Setup.__init__. rewrite Hh. reflexivity.
  - intros Hh Hc Hmissing.
    unfold Setup.__init__, Setup._login, Setup.and_then, Setup.made, Setup.fail.
    rewrite Hh, Hc. cbn [negb app].
    destruct Hmissing as [-> | ->]; cbn [negb orb]; [reflexivity|].
    rewrite orb_true_r. reflexivity.
Qed.

Lemma init_checks_credentials_last_witness :
  Setup.__init__ Setup.gmail (Some "imap.gmail.com") None (Some "app-password") None ""
    true false [] =
  (inl (Setup.Raised "Missing username or password parameters"),
   [Setup.Connect "imap.gmail.com";
    Setup.OpenShelf "/home/user/.LostPhotosFound/.index_None";
    Setup.OpenShelf "/home/user/.LostPhotosFound/.hashes_None"]).
Proof.
  exact (proj2 (init_checks_credentials_last Setup.gmail (Some "imap.gmail.com") None
                  (Some "app-password") None "" true false)
           eq_refl eq_refl (or_introl eq_refl)).
Defined.

(** ** Lifting a property of the extractor to the run *)

Section Lifting.

Variable E : env.
Variable C : config.
Variable R : state -> state -> Prop.
Hypothesis R_refl : Reflexive R.
Hypothesis R_trans : Transitive R.

(** Steps that leave the disk and the hash shelf alone are in [R]. *)
Hypothesis R_bookkeeping :
  forall s s', files s' = files s -> _hashes s' = _hashes s -> R s s'.

Hypothesis R_save_part :
  forall p m sender, respects R (_save_part E C p m sender).

Lemma emit_respects (e : event) : respects R (emit e).
Proof. intros s r s' [= <- <-]. apply R_bookkeeping; reflexivity. Qed.

Lemma walk_parts_respects (parts : list part) (m : mail) (sender : string) :
  respects R (walk_parts E C parts m sender).
Proof.
  induction parts as [|p rest IH]; cbn [walk_parts].
  - apply respects_ret, _.
  - apply respects_bind; [exact R_trans| |intros _; exact IH].
    destruct (eligible p); [apply R_save_part|apply respects_ret, _].
Qed.

Lemma process_mail_respects (msgid : string) (m : mail) :
  respects R (process_mail E C msgid m).
Proof.
  unfold process_mail. destruct (negb _); [apply respects_ret, _|].
  destruct (mail_from m) as [from|]; [|apply respects_raise, _].
  apply respects_bind; [exact R_trans|apply walk_parts_respects|].
  intros _ s r s' [= <- <-]. apply R_bookkeeping; reflexivity.
Qed.

Lemma process_msgdata_respects (msgid : string) (msgdata : list mail) :
  respects R (process_msgdata E C msgid msgdata).
Proof.
  induction msgdata as [|m rest IH]; cbn [process_msgdata].
  - apply respects_ret, _.
  - apply respects_bind; [exact R_trans|apply process_mail_respects|intros _; exact IH].
Qed.

Lemma process_message_respects (h : msg) : respects R (process_message E C h).
Proof.
  unfold process_message.
  apply respects_bind; [exact R_trans|apply emit_respects|]. intros _.
  destruct (fetch_msgid E h) as [[|msgid ids]|]; try apply respects_raise, _.
  apply respects_bind; [exact R_trans| |].
  { intros s r s' [= <- <-]. reflexivity. }
  intros s. destruct (_ && _); [apply respects_ret, _|].
  apply respects_bind; [exact R_trans|apply emit_respects|]. intros _.
  destruct (fetch_rfc822 E h); [apply process_msgdata_respects|apply respects_raise, _].
Qed.

Lemma process_messages_respects (messages : list msg) :
  respects R (process_messages E C messages).
Proof.
  induction messages as [|h rest IH]; cbn [process_messages].
  - apply respects_ret, _.
  - apply respects_bind; [exact R_trans|apply process_message_respects|intros _; exact IH].
Qed.

Lemma lostphotosfound_respects : respects R (lostphotosfound E C).
Proof.
  unfold lostphotosfound, _filter_messages, _cleanup.
  repeat (apply respects_bind; [exact R_trans|try apply emit_respects|intros ?]);
    try apply emit_respects.
  - destruct (gmail_search E _); [apply respects_ret, _|apply respects_raise, _].
  - apply process_messages_respects.
Qed.

End Lifting.

(** ** What a run never does to the disk and the shelves *)

(** X5: whatever its outcome, a run keeps every file that was on disk with
    the bytes it had, and removes no entry from the hash shelf or from the
    index. *)
Theorem run_only_adds (E : env) (C : config) (st st' : state) (r : result unit) :
  lostphotosfound E C st = (r, st') ->
  (forall path content,
     files st !! path = Some content -> files st' !! path = Some content) /\
  (forall h, is_Some (_hashes st !! h) -> is_Some (_hashes st' !! h)) /\
  (forall i, is_Some (_index st !! i) -> is_Some (_index st' !! i)).
Proof.
  intros H. unfold lostphotosfound in H.
  assert (Hloop : respects grows
            (bind (_filter_messages E C) (fun messages => process_messages E C messages))).
  { apply respects_bind; [apply _|apply _filter_messages_grows|].
    intros messages. apply process_messages_grows. }
  assert (Hassoc : forall s,
            bind (_filter_messages E C)
              (fun messages => bind (process_messages E C messages) (fun _ => _cleanup)) s =
            bind (bind (_filter_messages E C) (fun messages => process_messages E C messages))
              (fun _ => _cleanup) s).
  { intros s. unfold bind. destruct (_filter_messages E C s) as [[ms|e] s1]; reflexivity. }
  rewrite Hassoc in H.
  destruct (bind_inv _ _ _ _ _ H) as [([] & s1 & H1 & H2)|(e & H1 & _)].
  - destruct (Hloop _ _ _ H1) as (Hf & Hh & Hi & _).
    destruct (_cleanup_result s1) as (s2 & Hc & Hcf & Hch & Hci & _).
    rewrite Hc in H2. injection H2 as _ <-. rewrite Hcf, Hch, Hci. auto.
  - destruct (Hloop _ _ _ H1) as (Hf & Hh & Hi & _). auto.
Qed.

Lemma run_only_adds_witness :
  let E := Demo.mailbox [1%Z] (fun _ => Some ["101"])
             (fun _ => Some [Demo.photo_mail "new.jpg" [Byte.x01]]) in
  let old := "/home/user/LostPhotosFound/me@gmail.com/holiday.jpg" in
  let st := put_files {[ old := [Byte.x07] ]} Demo.fresh in
  files (snd (lostphotosfound E (Demo.account None) st)) !! old = Some [Byte.x07].
Proof.
  intros E old st.
  exact (proj1 (run_only_adds E (Demo.account None) st _ _ (surjective_pairing _))
           old [Byte.x07] eq_refl).
Defined.

(** ** File names *)

Lemma chars_append (a b : string) : chars (a +:+ b) = chars a ++ chars b.
Proof.
  unfold chars. induction a as [|c a IH]; [reflexivity|].
  change (c :: list_ascii_of_string (a +:+ b) = c :: (list_ascii_of_string a ++ chars b)).
  rewrite IH. reflexivity.
Qed.

Lemma uint_chars (d : Decimal.uint) (c : ascii) :
  In c (chars (NilEmpty.string_of_uint d)) -> In c (chars "0123456789").
Proof.
  induction d as [|d IH|d IH|d IH|d IH|d IH|d IH|d IH|d IH|d IH|d IH];
    cbn [NilEmpty.string_of_uint chars list_ascii_of_string In];
    [tauto|..]; (intros [<-|H]; [cbn; tauto|exact (IH H)]).
Qed.

Lemma str_int_chars (z : Z) (c : ascii) :
  In c (chars (PyStr.str_int z)) -> In c (chars "-0123456789").
Proof.
  assert (Huint : forall d, In c (chars (NilZero.string_of_uint d)) ->
                            In c (chars "-0123456789")).
  { intros d H. right.
    destruct d; try exact (uint_chars _ c H).
    cbn in H. cbn. tauto. }
  unfold PyStr.str_int, NilZero.string_of_int.
  destruct (Z.to_int z) as [d|d]; [apply Huint|].
  cbn [chars list_ascii_of_string In]. intros [<-|H]; [cbn; tauto|exact (Huint d H)].
Qed.

Lemma date_prefix_chars (d : date6) (c : ascii) :
  In c (chars (date_prefix d)) -> In c (chars "_-0123456789").
Proof.
  unfold date_prefix. rewrite !chars_append, !in_app_iff.
  assert (Hint : forall z, In c (chars (PyStr.str_int z)) -> In c (chars "_-0123456789"))
    by (intros z H; right; exact (str_int_chars z c H)).
  assert (Hsep : forall sep, (sep = "-" \/ sep = "_") -> In c (chars sep) ->
                             In c (chars "_-0123456789")).
  { intros sep [-> | ->]; cbn; tauto. }
  intuition eauto.
Qed.

Lemma sanitize_chars (name : string) (c : ascii) :
  In c (chars (sanitize name)) -> is_punct c = false /\ In c (chars name).
Proof.
  unfold chars. rewrite sanitize_filter, list_ascii_of_string_of_list_ascii.
  rewrite filter_In. intros [Hin Hp]. split; [|exact Hin].
  destruct (is_punct c); [discriminate Hp|reflexivity].
Qed.

(** X6: the name a file is saved under holds none of the stripped
    characters, whatever the attachment declares: no slash and no backslash
    in particular, so the destination is an entry of the directory the
    extractor computed and nothing below or above it. *)
Theorem filename_is_clean (d : date6) (name : string) :
  (forall c, In c (chars (filename d name)) -> is_punct c = false) /\
  forall dir,
    PyStr.path_join dir (filename d name) =
    (if negb (PyStr.truthy dir) || PyStr.ends_with_slash dir then dir else dir +:+ "/")
    +:+ filename d name.
Proof.
  assert (Hclean : forall c, In c (chars (filename d name)) -> is_punct c = false).
  { intros c. unfold filename. rewrite chars_append, in_app_iff.
    intros [H|H]; [|exact (proj1 (sanitize_chars _ _ H))].
    apply date_prefix_chars in H. cbn in H.
    repeat (destruct H as [<-|H]; [reflexivity|]). destruct H. }
  split; [exact Hclean|].
  intros dir. apply path_join_relative.
  destruct (filename d name) as [|c rest] eqn:Hf; [reflexivity|].
  specialize (Hclean c (or_introl eq_refl)).
  change (String.prefix "/" (String c rest))
    with (if ascii_dec "/" c then String.prefix "" rest else false).
  destruct (ascii_dec "/" c) as [<-|Hne]; [discriminate Hclean|reflexivity].
Qed.

(** ** Where a run writes *)

Lemma store_payload_new_files (E : env) (p : part) (saved : string) (s : state) r s' :
  store_payload E p saved s = (r, s') ->
  forall path, is_Some (files s' !! path) -> is_Some (files s !! path) \/ path = saved.
Proof.
  rewrite store_payload_cases. intros Hrun path Hp.
  destruct (decide (path = saved)) as [->|Hne]; [right; reflexivity|]. left.
  assert (Hneq : saved <> path) by congruence.
  case_bool_decide; [injection Hrun as _ <-; exact Hp|]. cbv zeta in Hrun.
  destruct (part_payload p) as [payload|].
  2:{ injection Hrun as _ <-. cbn [files add_event put_files put_hashes] in Hp.
      rewrite lookup_insert_ne in Hp by exact Hneq. exact Hp. }
  case_bool_decide.
  { injection Hrun as _ <-. cbn [files add_event put_files put_hashes] in Hp.
    rewrite lookup_delete_ne, lookup_insert_ne in Hp by exact Hneq. exact Hp. }
  destruct (write_ok E saved payload); injection Hrun as _ <-;
    cbn [files add_event put_files put_hashes] in Hp;
    rewrite ?lookup_insert_ne in Hp by exact Hneq; exact Hp.
Qed.

Lemma destination_shape (E : env) (C : config) (p : part) (m : mail)
    (sender saved : string) (s s1 : state) :
  destination E C p m sender s = (Ok saved, s1) ->
  exists d name, saved = PyStr.path_join (savepath E C sender) (filename d name).
Proof.
  intros H. pose proof (destination_fst E C p m sender s) as Hfst.
  rewrite H in Hfst. cbn [fst] in Hfst. unfold destination_path in Hfst.
  destruct (resolved_name E p) as [name|]; [|discriminate].
  destruct (mail_date m) as [raw|]; [|discriminate].
  destruct (parsedate E (_charset_decoder E raw)) as [d|]; [|discriminate].
  injection Hfst as ->. eauto.
Qed.

(** X7: with sender folders off, every file that a run adds to the disk,
    whatever the outcome of the run, is an entry of the one directory
    [LostPhotosFound/<username>]: its path is that directory joined with a
    date prefix and a sanitized name. *)
Theorem new_files_lie_in_account_directory
    (E : env) (C : config) (st st' : state) (r : result unit) :
  _use_folders C = false ->
  lostphotosfound E C st = (r, st') ->
  forall path, is_Some (files st' !! path) ->
    is_Some (files st !! path) \/
    exists d name,
      path = PyStr.path_join (PyStr.path_join (userdir E) (_username C)) (filename d name).
Proof.
  intros Hfolders Hrun.
  set (P := fun path : string => exists d name,
         path = PyStr.path_join (PyStr.path_join (userdir E) (_username C)) (filename d name)).
  apply (lostphotosfound_respects E C (new_files_satisfy P)) in Hrun; [exact Hrun|..].
  - intros s path Hp. left. exact Hp.
  - intros s1 s2 s3 H12 H23 path Hp.
    destruct (H23 path Hp) as [Hp2|HP]; [exact (H12 path Hp2)|right; exact HP].
  - intros s s' Hf _ path Hp. left. rewrite <- Hf. exact Hp.
  - intros p m sender s r0 s' H path Hp. unfold _save_part in H.
    destruct (bind_inv _ _ _ _ _ H) as [(saved & s1 & Hd & Hs)|(e & Hd & _)].
    + destruct (destination_frame _ _ _ _ _ _ _ _ Hd) as (_ & _ & Hf & _).
      destruct (store_payload_new_files _ _ _ _ _ _ Hs path Hp) as [Hold| ->].
      * left. rewrite <- Hf. exact Hold.
      * right. destruct (destination_shape _ _ _ _ _ _ _ _ Hd) as (d & name & ->).
        exists d, name. unfold savepath. rewrite Hfolders. reflexivity.
    + destruct (destination_frame _ _ _ _ _ _ _ _ Hd) as (_ & _ & Hf & _).
      left. rewrite <- Hf. exact Hp.
Qed.

Lemma new_files_lie_in_account_directory_witness :
  let E := Demo.mailbox [1%Z] (fun _ => Some ["101"])
             (fun _ => Some [Demo.photo_mail "../../etc/passwd" [Byte.x01]]) in
  let path :=
    "/home/user/LostPhotosFound/me@gmail.com/2012-10-28_19-15-22_....etcpasswd" in
  is_Some (files Demo.fresh !! path) \/
  exists d name,
    path = PyStr.path_join "/home/user/LostPhotosFound/me@gmail.com" (filename d name).
Proof.
  intros E path.
  refine (new_files_lie_in_account_directory E (Demo.account None) Demo.fresh _ _
            eq_refl (surjective_pairing _) path _).
  vm_compute. eauto.
Defined.

(** ** The hash shelf and the disk *)



(** ** When a message is recorded *)

Lemma store_payload_index (E : env) (p : part) (saved : string) (s : state) r s' :
  store_payload E p saved s = (r, s') -> _index s' = _index s.
Proof.
  rewrite store_payload_cases. intros H.
  case_bool_decide; [injection H as _ <-; reflexivity|]. cbv zeta in H.
  destruct (part_payload p) as [payload|]; [|injection H as _ <-; reflexivity].
  case_bool_decide; [injection H as _ <-; reflexivity|].
  destruct (write_ok E saved payload); injection H as _ <-; reflexivity.
Qed.

Lemma _save_part_index (E : env) (C : config) (p : part) (m : mail) (sender : string)
    (s : state) r s' :
  _save_part E C p m sender s = (r, s') -> _index s' = _index s.
Proof.
  unfold _save_part. intros H.
  destruct (bind_inv _ _ _ _ _ H) as [(saved & s1 & Hd & Hs)|(e & Hd & _)].
  - destruct (destination_frame _ _ _ _ _ _ _ _ Hd) as (Hi & _).
    rewrite (store_payload_index _ _ _ _ _ _ Hs). exact Hi.
  - exact (proj1 (destination_frame _ _ _ _ _ _ _ _ Hd)).
Qed.

Lemma walk_parts_index (E : env) (C : config) (parts : list part) (m : mail)
    (sender : string) (s : state) r s' :
  walk_parts E C parts m sender s = (r, s') -> _index s' = _index s.
Proof.
  revert s. induction parts as [|p rest IH]; intros s; cbn [walk_parts].
  - intros [= <- <-]. reflexivity.
  - intros H.
    destruct (bind_inv _ _ _ _ _ H) as [(a & s1 & H1 & H2)|(e & H1 & _)].
    + rewrite (IH _ H2). destruct (eligible p).
      * exact (_save_part_index _ _ _ _ _ _ _ _ H1).
      * injection H1 as _ <-. reflexivity.
    + destruct (eligible p); [|discriminate H1].
      exact (_save_part_index _ _ _ _ _ _ _ _ H1).
Qed.

(** X9: a multipart message is put in the index when the walk over its
    parts has come to its end, and only then: if the handling of the
    message stops on an error, the index is as it was before the message. *)
Theorem message_recorded_only_after_walk
    (E : env) (C : config) (msgid : string) (m : mail) (s : state) :
  mail_maintype m = "multipart" ->
  match process_mail E C msgid m s with
  | (Ok _, s') => _index s' = <[msgid := msgid]> (_index s)
  | (Err _, s') => _index s' = _index s
  end.
Proof.
  intros Hm. destruct (process_mail E C msgid m s) as [r s'] eqn:H.
  unfold process_mail in H. rewrite Hm in H.
  change (negb (String.eqb "multipart" "multipart")) with false in H. cbv iota in H.
  destruct (mail_from m) as [from|]; [|injection H as <- <-; reflexivity].
  destruct (bind_inv _ _ _ _ _ H) as [(a & s1 & Hw & Hrec)|(e & Hw & ->)].
  - injection Hrec as <- <-. cbn [_index put_index].
    rewrite (walk_parts_index _ _ _ _ _ _ _ _ Hw). reflexivity.
  - exact (walk_parts_index _ _ _ _ _ _ _ _ Hw).
Qed.

Lemma message_recorded_only_after_walk_witness :
  let E := Demo.mailbox [] (fun _ => None) (fun _ => None) in
  let undecodable :=
    {| part_filename := Some "b.jpg"; part_content_type_header := Some "image/jpeg";
       part_maintype := "image"; part_subtype := "jpeg";
       part_disposition := None; part_payload := None |} in
  let m :=
    {| mail_maintype := "multipart"; mail_from := Some "Bob <bob@example.org>";
       mail_date := Some Demo.date_header;
       mail_walk := [Demo.container; Demo.image_part "a.jpg" [Byte.x01]; undecodable] |} in
  match process_mail E (Demo.account None) "101" m Demo.fresh with
  | (Ok _, s') => _index s' = <[ "101" := "101" ]> (_index Demo.fresh)
  | (Err _, s') => _index s' = _index Demo.fresh
  end.
Proof.
  intros E undecodable m.
  exact (message_recorded_only_after_walk E (Demo.account None) "101" m Demo.fresh eq_refl).
Defined.

(** ** Duplicates and failed extractions *)

(** X10: a part whose payload has its digest in the hash shelf already,
    bound for a path where no file is, is not an error: the file opened for
    it is removed again, and the call returns normally with the disk, the
    hash shelf and the index as they were. *)
Theorem duplicate_payload_is_dropped
    (E : env) (C : config) (p : part) (m : mail) (sender saved : string)
    (payload : bytes) (st st1 : state) :
  destination E C p m sender st = (Ok saved, st1) ->
  files st !! saved = None ->
  part_payload p = Some payload ->
  is_Some (_hashes st !! sha1_hexdigest E payload) ->
  exists st',
    _save_part E C p m sender st = (Ok tt, st') /\
    files st' = files st /\ _hashes st' = _hashes st /\ _index st' = _index st /\
    trace st' = trace st1 ++ [EvOpen saved; EvDecode; EvRemove saved].
Proof.
  intros Hd Hfree Hpay Hdup.
  destruct (destination_frame _ _ _ _ _ _ _ _ Hd) as (Hi & Hh & Hf & _).
  unfold _save_part. rewrite (bind_step _ _ _ _ _ Hd).
  rewrite store_payload_cases, Hf, Hh, Hpay. cbv zeta.
  rewrite bool_decide_eq_false_2 by (rewrite Hfree; apply is_Some_None).
  rewrite bool_decide_eq_true_2 by exact Hdup.
  eexists. split; [reflexivity|].
  cbn [files _hashes _index trace add_event put_files].
  rewrite delete_insert_id by exact Hfree.
  rewrite <- !app_assoc. auto.
Qed.

Lemma duplicate_payload_is_dropped_witness :
  let E := Demo.mailbox [] (fun _ => None) (fun _ => None) in
  let st := put_hashes {[ "01" := "01" ]} Demo.fresh in
  let r := _save_part E (Demo.account None) (Demo.image_part "again.jpg" [Byte.x01])
             (Demo.photo_mail "again.jpg" [Byte.x01]) "bob" st in
  exists st', r = (Ok tt, st') /\ files st' = files st /\ _hashes st' = _hashes st /\
    _index st' = _index st /\
    trace st' =
      [EvMakedirs "/home/user/LostPhotosFound/me@gmail.com"] ++
      [EvOpen "/home/user/LostPhotosFound/me@gmail.com/2012-10-28_19-15-22_again.jpg";
       EvDecode;
       EvRemove "/home/user/LostPhotosFound/me@gmail.com/2012-10-28_19-15-22_again.jpg"].
Proof.
  intros E st r.
  exact (duplicate_payload_is_dropped E (Demo.account None)
           (Demo.image_part "again.jpg" [Byte.x01]) (Demo.photo_mail "again.jpg" [Byte.x01])
           "bob" _ [Byte.x01] st _ eq_refl eq_refl eq_refl
           (ex_intro _ "01" eq_refl)).
Defined.



(** ** Running again *)

Lemma process_msgdata_non_multipart (E : env) (C : config) (msgid : string)
    (msgdata : list mail) (s : state) :
  Forall (fun m => mail_maintype m <> "multipart") msgdata ->
  process_msgdata E C msgid msgdata s = (Ok tt, s).
Proof.
  induction 1 as [|m rest Hm _ IH]; [reflexivity|].
  cbn [process_msgdata].
  rewrite (bind_step _ _ _ _ _ (process_mail_non_multipart E C msgid m s Hm)).
  exact IH.
Qed.

Lemma process_msgdata_settles (E : env) (C : config) (msgid : string)
    (msgdata : list mail) (s s' : state) :
  process_msgdata E C msgid msgdata s = (Ok tt, s') ->
  is_Some (_index s' !! msgid) \/
  Forall (fun m => mail_maintype m <> "multipart") msgdata.
Proof.
  revert s. induction msgdata as [|m rest IH]; intros s; [right; constructor|].
  cbn [process_msgdata]. intros H.
  destruct (bind_ok _ _ _ _ _ H) as ([] & s1 & Hmail & Hrest).
  destruct (String.eqb_spec (mail_maintype m) "multipart") as [Hm|Hm].
  - left. pose proof (message_recorded_only_after_walk E C msgid m s Hm) as Hrec.
    rewrite Hmail in Hrec.
    destruct (process_msgdata_grows _ _ _ _ _ _ _ Hrest) as (_ & _ & Hi & _).
    apply Hi. rewrite Hrec, lookup_insert_eq. eauto.
  - destruct (IH _ Hrest) as [Hin|Hall]; [left; exact Hin|right].
    constructor; assumption.
Qed.

Lemma settled_same_index (E : env) (s s' : state) (h : msg) :
  (forall i, is_Some (_index s !! i) -> is_Some (_index s' !! i)) ->
  settled E s h -> settled E s' h.
Proof.
  intros Hi (msgid & ids & Hid & [Hin|Hnon]); exists msgid, ids; split; auto.
Qed.

Lemma process_message_settles (E : env) (C : config) (h : msg) (s s' : state) :
  process_message E C h s = (Ok tt, s') -> settled E s' h.
Proof.
  unfold process_message. intros H.
  destruct (bind_ok _ _ _ _ _ H) as ([] & s0 & Hemit & Hrest). clear H.
  injection Hemit as <-.
  destruct (fetch_msgid E h) as [[|msgid ids]|] eqn:Hid; try discriminate Hrest.
  exists msgid, ids. split; [exact Hid|].
  unfold bind at 1 in Hrest. cbn [get_state] in Hrest.
  destruct (_use_index C && _) eqn:Hgate.
  - injection Hrest as <-. left.
    apply andb_true_iff in Hgate. destruct Hgate as [_ Hin].
    apply bool_decide_eq_true in Hin. exact Hin.
  - destruct (bind_ok _ _ _ _ _ Hrest) as ([] & s1 & _ & Hbody).
    destruct (fetch_rfc822 E h) as [msgdata|]; [|discriminate Hbody].
    destruct (process_msgdata_settles _ _ _ _ _ _ Hbody) as [Hin|Hall];
      [left; exact Hin|right; eauto].
Qed.

Lemma process_messages_settle (E : env) (C : config) (messages : list msg) (s s' : state) :
  process_messages E C messages s = (Ok tt, s') -> Forall (settled E s') messages.
Proof.
  revert s. induction messages as [|h rest IH]; intros s; [constructor|].
  cbn [process_messages]. intros H.
  destruct (bind_ok _ _ _ _ _ H) as ([] & s1 & Hmsg & Hrest).
  constructor; [|exact (IH _ Hrest)].
  destruct (process_messages_grows _ _ _ _ _ _ Hrest) as (_ & _ & Hi & _).
  exact (settled_same_index E s1 s' h Hi (process_message_settles _ _ _ _ _ Hmsg)).
Qed.

Lemma only_looked_trans (s1 s2 s3 : state) :
  only_looked s1 s2 -> only_looked s2 s3 -> only_looked s1 s3.
Proof.
  intros (Hi & Hh & Hq & Hf & Hd & evs & Ht & Hall)
         (Hi' & Hh' & Hq' & Hf' & Hd' & evs' & Ht' & Hall').
  unfold only_looked. rewrite Hi', Hh', Hq', Hf', Hd'. repeat split; try assumption.
  exists (evs ++ evs'). split; [rewrite Ht', Ht, app_assoc; reflexivity|].
  apply Forall_app. split; assumption.
Qed.

Lemma settled_message_is_only_looked_at (E : env) (C : config) (h : msg) (s : state) :
  _use_index C = true -> settled E s h ->
  exists s', process_message E C h s = (Ok tt, s') /\ only_looked s s'.
Proof.
  intros Huse (msgid & ids & Hid & Hsettled).
  unfold process_message. rewrite Hid, Huse.
  unfold bind at 1 2. cbn [emit modify get_state andb].
  change (_index (add_event (EvFetchId h) s)) with (_index s).
  destruct (bool_decide (is_Some (_index s !! msgid))) eqn:Hin.
  - eexists. split; [reflexivity|].
    unfold only_looked. cbn. repeat split. exists [EvFetchId h].
    split; [reflexivity|]. repeat constructor.
  - destruct Hsettled as [Habs|(msgdata & Hbody & Hall)].
    { apply bool_decide_eq_false in Hin. contradiction. }
    rewrite Hbody. unfold bind at 1. cbn [emit modify].
    rewrite (process_msgdata_non_multipart E C msgid msgdata _ Hall).
    eexists. split; [reflexivity|].
    unfold only_looked. cbn. repeat split. exists [EvFetchId h; EvFetchBody h].
    split; [rewrite <- app_assoc; reflexivity|]. repeat constructor.
Qed.

Lemma settled_messages_are_only_looked_at (E : env) (C : config) (messages : list msg)
    (s : state) :
  _use_index C = true -> Forall (settled E s) messages ->
  exists s', process_messages E C messages s = (Ok tt, s') /\ only_looked s s'.
Proof.
  intros Huse. revert s. induction messages as [|h rest IH]; intros s Hall.
  - exists s. split; [reflexivity|].
    unfold only_looked. repeat split. exists []. rewrite app_nil_r.
    split; [reflexivity|constructor].
  - inversion Hall as [|? ? Hh Hrest]; subst.
    destruct (settled_message_is_only_looked_at E C h s Huse Hh) as (s1 & Hmsg & Hl1).
    assert (Hrest1 : Forall (settled E s1) rest).
    { eapply Forall_impl; [exact Hrest|]. intros h'. apply settled_same_index.
      destruct Hl1 as (Hi & _). rewrite Hi. auto. }
    destruct (IH s1 Hrest1) as (s2 & Hrun & Hl2).
    exists s2. split; [|exact (only_looked_trans _ _ _ Hl1 Hl2)].
    cbn [process_messages]. rewrite (bind_step _ _ _ _ _ Hmsg). exact Hrun.
Qed.

(** X12: with the index in use, running again over the same mailbox after
    a run that completed changes nothing but the log of calls: the second
    run completes too, opens, decodes, writes and removes no file, and
    leaves the disk, the hash shelf and the index as the first run left
    them. *)
Theorem second_run_changes_nothing (E : env) (C : config) (st st1 : state) :
  _use_index C = true ->
  lostphotosfound E C st = (Ok tt, st1) ->
  exists st2,
    lostphotosfound E C st1 = (Ok tt, st2) /\
    files st2 = files st1 /\ _hashes st2 = _hashes st1 /\ _index st2 = _index st1 /\
    exists evs, trace st2 = trace st1 ++ evs /\
                Forall (fun e => is_extraction_event e = false) evs.
Proof.
  intros Huse Hrun.
  unfold lostphotosfound, _filter_messages in Hrun.
  unfold bind at 1 2 in Hrun. cbn [emit modify] in Hrun.
  destruct (gmail_search E (criteria E C)) as [messages|] eqn:Hsearch;
    [|discriminate Hrun].
  cbn [ret] in Hrun.
  destruct (bind_ok _ _ _ _ _ Hrun) as ([] & sA & Hloop & Hclean). clear Hrun.
  destruct (_cleanup_result sA) as (s1' & Hc & _ & _ & Hci & _).
  rewrite Hc in Hclean. injection Hclean as <-.
  assert (Hsettled : Forall (settled E (add_event (EvSearch (criteria E C)) s1')) messages).
  { eapply Forall_impl; [exact (process_messages_settle _ _ _ _ _ Hloop)|].
    intros h. apply settled_same_index. cbn [_index add_event]. rewrite Hci. auto. }
  destruct (settled_messages_are_only_looked_at E C messages _ Huse Hsettled)
    as (sB & Hloop2 & Hi & Hh & _ & Hf & _ & evs & Ht & Hall).
  destruct (_cleanup_result sB) as (s2 & Hc2 & Hcf & Hch & Hci2 & Hct).
  exists s2. split.
  - unfold lostphotosfound, _filter_messages.
    unfold bind at 1 2. cbn [emit modify]. rewrite Hsearch. cbn [ret].
    rewrite (bind_step _ _ _ _ _ Hloop2). exact Hc2.
  - rewrite Hcf, Hch, Hci2, Hf, Hh, Hi. repeat split.
    exists ([EvSearch (criteria E C)] ++ evs ++ cleanup_events). split.
    + rewrite Hct, Ht. cbn [trace add_event]. rewrite <- !app_assoc. reflexivity.
    + apply Forall_app. split; [repeat constructor|]. apply Forall_app. split.
      * eapply Forall_impl; [exact Hall|]. intros e [He _]. exact He.
      * repeat constructor.
Qed.

Lemma second_run_changes_nothing_witness :
  let E := Demo.mailbox [1%Z; 2%Z]
             (fun h => Some [if (h =? 1)%Z then "101" else "102"])
             (fun h => Some [if (h =? 1)%Z then Demo.photo_mail "a.jpg" [Byte.x01]
                             else Demo.text_mail]) in
  let st1 := snd (lostphotosfound E (Demo.account None) Demo.fresh) in
  exists st2,
    lostphotosfound E (Demo.account None) st1 = (Ok tt, st2) /\
    files st2 = files st1 /\ _hashes st2 = _hashes st1 /\ _index st2 = _index st1 /\
    exists evs, trace st2 = trace st1 ++ evs /\
                Forall (fun e => is_extraction_event e = false) evs.
Proof.
  intros E st1.
  refine (second_run_changes_nothing E (Demo.account None) Demo.fresh st1 eq_refl _).
  rewrite (surjective_pairing (lostphotosfound E (Demo.account None) Demo.fresh)).
  reflexivity.
Defined.

(** ** Fatal errors *)

(** X13: a run stops at the first message whose handling fails: the error
    of that message is the error of the run, the state is the one the
    failure left, and the messages after it are not looked at. *)
Theorem run_stops_at_first_failure
    (E : env) (C : config) (before after : list msg) (h : msg)
    (st s1 s2 : state) (e : error) :
  gmail_search E (criteria E C) = Some (before ++ h :: after) ->
  process_messages E C before (add_event (EvSearch (criteria E C)) st) = (Ok tt, s1) ->
  process_message E C h s1 = (Err e, s2) ->
  lostphotosfound E C st = (Err e, s2).
Proof.
  intros Hsearch Hbefore Hfail.
  unfold lostphotosfound, _filter_messages.
  unfold bind at 1 2. cbn [emit modify]. rewrite Hsearch. cbn [ret].
  unfold bind at 1. rewrite process_messages_app.
  rewrite (bind_step _ _ _ _ _ Hbefore). cbn [process_messages].
  unfold bind at 1. rewrite Hfail. reflexivity.
Qed.

Lemma run_stops_at_first_failure_witness :
  let E := Demo.mailbox [1%Z; 2%Z; 3%Z]
             (fun h => if (h =? 2)%Z then None else Some ["101"])
             (fun h => Some [Demo.photo_mail "a.jpg" [Byte.x01]]) in
  fst (lostphotosfound E (Demo.account None) Demo.fresh) =
    Err (Exception "Could not fetch the message ID, server did not respond") /\
  ~ In (EvFetchId 3%Z) (trace (snd (lostphotosfound E (Demo.account None) Demo.fresh))).
Proof.
  intros E.
  rewrite (run_stops_at_first_failure E (Demo.account None) [1%Z] [3%Z] 2%Z Demo.fresh
             _ _ _ eq_refl (surjective_pairing _) (surjective_pairing _)).
  split; [reflexivity|]. vm_compute. intuition discriminate.
Defined.

(** X14: when the mailbox session rejects the search, the run fails with
    the search error at once: no message is fetched, nothing is cleaned up,
    and but for the search call the state is the one the run started in. *)
Theorem rejected_search_stops_the_run (E : env) (C : config) (st : state) :
  gmail_search E (criteria E C) = None ->
  lostphotosfound E C st =
    (Err (Exception "Search criteria returned a failure, it must be a valid gmail search"),
     add_event (EvSearch (criteria E C)) st).
Proof.
  intros Hsearch. unfold lostphotosfound, _filter_messages.
  unfold bind at 1 2. cbn [emit modify]. rewrite Hsearch. reflexivity.
Qed.

Lemma rejected_search_stops_the_run_witness :
  let E :=
    {| _charset_decoder := Demo.plain_decoder; parsedate := Demo.parse_known_date;
       parseaddr := Demo.angle_addr; sha1_hexdigest := Demo.toy_digest;
       types_map := [(".jpg", "image/jpeg")];
       userdir := "/home/user/LostPhotosFound";
       gmail_search := fun _ => None;
       fetch_msgid := fun _ => Some ["101"];
       fetch_rfc822 := fun _ => Some [Demo.photo_mail "a.jpg" [Byte.x01]];
       write_ok := fun _ _ => true |} in
  trace (snd (lostphotosfound E (Demo.account (Some "is:(")) Demo.fresh)) =
    [EvSearch "is:( has:attachment filename:(jpg)"].
Proof.
  intros E.
  rewrite (rejected_search_stops_the_run E (Demo.account (Some "is:(")) Demo.fresh eq_refl).
  reflexivity.
Defined.

(** ** The list of image extensions *)

Lemma prefix_empty (s : string) : String.prefix "" s = true.
Proof. destruct s; reflexivity. Qed.

Lemma replace_dot_chars (s : string) :
  chars (PyStr.replace "." "" s) =
  List.filter (fun c => negb (Ascii.eqb c ".")) (chars s).
Proof.
  unfold PyStr.replace, chars. induction s as [|c s IH]; [reflexivity|].
  cbn [PyStr.replace_go list_ascii_of_string List.filter].
  change (String.prefix "." (String c s))
    with (if ascii_dec "." c then String.prefix "" s else false).
  destruct (ascii_dec "." c) as [<-|Hne].
  - rewrite prefix_empty. cbn [String.length Nat.sub]. exact IH.
  - assert (Heq : Ascii.eqb c "." = false).
    { apply Ascii.eqb_neq. congruence. }
    rewrite Heq. cbn [negb list_ascii_of_string]. rewrite IH. reflexivity.
Qed.

(** X15: every extension put in the search criteria comes from an entry of
    the type table whose type name contains [image], and it is that entry's
    extension with all its dots taken out: no extension in the list holds a
    dot. *)
Theorem image_extensions_have_no_dot (tm : list (string * string)) (e : string) :
  In e (image_extensions tm) ->
  ~ In "."%char (chars e) /\
  exists ext ty,
    In (ext, ty) tm /\ PyStr.contains "image" ty = true /\
    chars e = List.filter (fun c => negb (Ascii.eqb c ".")) (chars ext).
Proof.
  induction tm as [|[ext ty] rest IH]; [intros []|].
  cbn [image_extensions].
  destruct (PyStr.contains "image" ty) eqn:Himg.
  - intros [<-|Hin].
    + split.
      * rewrite replace_dot_chars, filter_In. intros [_ Hdot]. discriminate Hdot.
      * exists ext, ty. split; [left; reflexivity|]. split; [exact Himg|].
        apply replace_dot_chars.
    + destruct (IH Hin) as (Hno & ext' & ty' & Hin' & Himg' & Heq).
      split; [exact Hno|]. exists ext', ty'. split; [right; exact Hin'|]. auto.
  - intros Hin. destruct (IH Hin) as (Hno & ext' & ty' & Hin' & Himg' & Heq).
    split; [exact Hno|]. exists ext', ty'. split; [right; exact Hin'|]. auto.
Qed.

Lemma image_extensions_have_no_dot_witness :
  ~ In "."%char (chars "targz").
Proof.
  exact (proj1 (image_extensions_have_no_dot
                  [(".txt", "text/plain"); (".tar.gz", "image/x-archive")] "targz"
                  (or_introl eq_refl))).
Defined.

(** ** The name of a part *)

(** X16: the extractor never synthesizes a name and never advances its
    counter.  The name is the tail of the Content-Type header when the
    decoded declared name holds [None], and the decoded declared name
    otherwise; an empty decoded name raises [IndexError], a part without
    Content-Type header reaching the first case raises [AttributeError],
    and all the call does to the object is to create the counter at zero
    when it has none. *)
Theorem name_is_never_synthesized (E : env) (p : part) (s : state) :
  resolve_name E p s =
  (resolved_name E p,
   match seq s with
   | Some _ => s
   | None => put_seq 0 s
   end).
Proof.
  unfold resolve_name, resolved_name, init_seq. unfold_m.
  destruct (PyStr.contains "None" (decoded_filename E p)).
  - destruct (seq s), (part_content_type_header p); reflexivity.
  - destruct (decoded_filename E p) as [|a name]; destruct (seq s); reflexivity.
Qed.

(** ** The index as a gate *)

(** X17: with the index in use, a message whose identifier is in the index
    costs the identifier fetch and nothing else: its body is not fetched
    and the state is otherwise untouched.  With the index not in use the
    body is fetched although the identifier is in the index. *)
Theorem index_gates_the_body_fetch
    (E : env) (C : config) (h : msg) (msgid : string) (ids : list string) (s : state) :
  fetch_msgid E h = Some (msgid :: ids) ->
  is_Some (_index s !! msgid) ->
  if _use_index C
  then process_message E C h s = (Ok tt, add_event (EvFetchId h) s)
  else exists evs,
         trace (snd (process_message E C h s)) =
           trace s ++ [EvFetchId h; EvFetchBody h] ++ evs.
Proof.
  intros Hid Hin. unfold process_message. rewrite Hid.
  unfold bind, emit, modify, get_state, ret. cbv beta iota.
  change (_index (add_event (EvFetchId h) s)) with (_index s).
  destruct (_use_index C); cbn [andb].
  - rewrite bool_decide_eq_true_2 by exact Hin. reflexivity.
  - set (s0 := add_event (EvFetchBody h) (add_event (EvFetchId h) s)).
    assert (Hs0 : trace s0 = trace s ++ [EvFetchId h; EvFetchBody h])
      by (cbn; rewrite <- app_assoc; reflexivity).
    destruct (fetch_rfc822 E h) as [msgdata|].
    + destruct (process_msgdata E C msgid msgdata s0) as [r s'] eqn:Hrun.
      destruct (process_msgdata_grows _ _ _ _ _ _ _ Hrun) as (_ & _ & _ & evs & Ht & _).
      exists evs. cbn [snd]. rewrite Ht, Hs0, <- app_assoc. reflexivity.
    + exists []. cbn [snd raise]. rewrite Hs0, app_nil_r. reflexivity.
Qed.

Lemma index_gates_the_body_fetch_witness :
  let E := Demo.mailbox [1%Z] (fun _ => Some ["101"])
             (fun _ => Some [Demo.photo_mail "a.jpg" [Byte.x01]]) in
  let s := put_index {[ "101" := "101" ]} Demo.fresh in
  process_message E (Demo.account None) 1%Z s = (Ok tt, add_event (EvFetchId 1%Z) s).
Proof.
  intros E s.
  exact (index_gates_the_body_fetch E (Demo.account None) 1%Z "101" [] s eq_refl
           (ex_intro _ "101" eq_refl)).
Defined.

(** ** The destination directory *)


